(** * Jollfi gaming API: the Sui transaction orchestration core

    A shallow embedding of the blockchain client (package [data], type
    [SuiClient]) and of the game service (package [service], type
    [GameService]), with the properties of the coin selection, of the
    move-call construction, of the effect-status interpretation and of
    the chain-then-record protocol.

    Conventions.
    - A Go [uint64] or [int] is a [Z]; its range is a hypothesis where
      it matters and wrap-around is written out where the code computes.
    - A Go [map[string]interface{}] is a [gmap string value], where
      [value] is the dynamic value that [encoding/json] decodes into an
      [interface{}].
    - A Go function returning [(T, error)] returns an [outcome T]; an
      unchecked type assertion that does not hold is [Panic].
    - Network traffic, console output, log lines and storage calls are
      events of a trace, in program order. *)

From Stdlib Require Import ZArith String Ascii List Lia.
From stdpp Require Import base option list gmap strings.

Local Open Scope string_scope.
Local Open Scope Z_scope.
Local Open Scope list_scope.
Set Warnings "-register-all".

(** ** Dynamic values *)

(** What [json.Unmarshal] stores in an [interface{}].  A JSON number is
    kept as an integer: the client computes with none. *)
Inductive value : Type :=
| VNil
| VBool (b : bool)
| VNum (z : Z)
| VStr (s : string)
| VArr (l : list value)
| VMap (m : gmap string value).

(** [m[k]] on a Go map: the zero value of [interface{}] is [nil]. *)
Definition index (m : gmap string value) (k : string) : value :=
  default VNil (m !! k).

(** ** Errors, panics and outcomes *)

(** One constructor per [fmt.Errorf] call site, carrying the formatted
    operands. *)
Inductive error : Type :=
| ErrRequest                       (* "failed to make request: %v" *)
| ErrDecode                        (* "failed to decode response: %v" *)
| ErrRPC (code : Z) (message : string)   (* "RPC error [%d]: %s" *)
| ErrParseCoins                    (* "failed to parse coins response: %v" *)
| ErrBothCoinIDs                   (* "both coin IDs are required" *)
| ErrStakeAmount                   (* "stake amount must be greater than 0" *)
| ErrCoinsForGas (e : error)       (* "failed to get coins for gas: %v" *)
| ErrNoGasCoin                     (* "no gas coin available" *)
| ErrGetCoins (e : error)          (* "failed to get coins: %v" *)
| ErrNoSUICoins                    (* "no SUI coins available for gas" *)
| ErrBuild (e : error)             (* "failed to build transaction: %v" *)
| ErrParseTxBytes                  (* "failed to parse transaction bytes: %v" *)
| ErrDecodeTxBytes                 (* "failed to decode transaction bytes: %v" *)
| ErrSign (e : error)              (* "failed to sign transaction: %v" *)
| ErrExecute (e : error)           (* "failed to execute transaction: %v" *)
| ErrParseResult                   (* "failed to parse execution result: %v" *)
| ErrTxFailed (status : gmap string value)
                                   (* "transaction failed with status: %v" *)
| ErrInsufficient (need required found : Z)
    (* "insufficient coins: need %d coins with %d balance each, found %d" *)
| ErrInvalidStake                  (* "invalid stake request" *)
| ErrAddresses                     (* "addresses are required" *)
| ErrInvalidPayWinner              (* "invalid pay winner request" *)
| ErrStorage (message : string).   (* an error of the storage driver *)

Inductive panic : Type :=
| PanicTypeAssertion (key : string).  (* [m[key].(string)] on a non-string *)

Inductive outcome (A : Type) : Type :=
| Ok (a : A)
| Err (e : error)
| Panic (p : panic).
Arguments Ok {A} a.
Arguments Err {A} e.
Arguments Panic {A} p.

(** ** The trace monad *)

Module Trace.

(** A computation emits events of type [E] and ends in an outcome.  An
    error or a panic ends the computation; the events before it stay. *)
Definition M (E A : Type) : Type := (list E * outcome A)%type.

Definition ret {E A} (a : A) : M E A := ([], Ok a).
Definition fail {E A} (e : error) : M E A := ([], Err e).
Definition emit {E} (ev : E) : M E unit := ([ev], Ok tt).

Definition bind {E A B} (m : M E A) (k : A → M E B) : M E B :=
  match m with
  | (t, Ok a) => let '(t', r) := k a in (t ++ t', r)
  | (t, Err e) => (t, Err e)
  | (t, Panic p) => (t, Panic p)
  end.

(** [v, err := f(); if err != nil { return ..., h(err) }]: the handler
    rewrites the error, a panic passes through. *)
Definition try {E A B} (m : M E A) (h : error → error) (k : A → M E B) : M E B :=
  match m with
  | (t, Ok a) => let '(t', r) := k a in (t ++ t', r)
  | (t, Err e) => (t, Err (h e))
  | (t, Panic p) => (t, Panic p)
  end.

(** [v, err := f(); if err != nil { ... } ...] where the error branch
    is a computation of its own. *)
Definition handle {E A B} (m : M E A) (h : error → M E B) (k : A → M E B) : M E B :=
  match m with
  | (t, Ok a) => let '(t', r) := k a in (t ++ t', r)
  | (t, Err e) => let '(t', r) := h e in (t ++ t', r)
  | (t, Panic p) => (t, Panic p)
  end.

(** A computation without events of its own. *)
Definition lift {E A} (o : outcome A) : M E A := ([], o).

(** Run a computation over events [E] inside one over events [F]. *)
Definition embed {E F A} (f : E → F) (m : M E A) : M F A := (f <$> m.1, m.2).

Definition trace {E A} (m : M E A) : list E := m.1.
Definition result {E A} (m : M E A) : outcome A := m.2.

End Trace.

#[global] Instance outcome_ret : MRet outcome := λ A a, Ok a.
#[global] Instance outcome_bind : MBind outcome := λ A B k m,
  match m with
  | Ok a => k a
  | Err e => Err e
  | Panic p => Panic p
  end.
#[global] Instance trace_ret {E} : MRet (Trace.M E) := λ A a, Trace.ret a.
#[global] Instance trace_bind {E} : MBind (Trace.M E) := λ A B k m, Trace.bind m k.

(** ** The Go library functions the client relies on *)

Module Go.

(** ['0' + d] for a digit [d] *)
Definition digit_char (d : Z) : ascii := ascii_of_N (Z.to_N (48 + d)).

(** The byte [c] as a decimal digit: ['0' <= c && c <= '9'] gives
    [c - '0'], any other byte is a syntax error in base 10. *)
Definition digit_val (c : ascii) : option Z :=
  let n := Z.of_N (N_of_ascii c) in
  if (48 <=? n) && (n <=? 57) then Some (n - 48) else None.

(** [fmt.Sprintf("%d", u)] for an unsigned [u]: the digits are written
    from the least significant one, [for u >= 10 { ...; u /= 10 }]. *)
Fixpoint fmtDigits (fuel : nat) (u : Z) (buf : string) : string :=
  match fuel with
  | O => buf
  | S fuel' =>
      if u <? 10 then String (digit_char u) buf
      else fmtDigits fuel' (u / 10) (String (digit_char (u mod 10)) buf)
  end.

(** A [uint64] has at most twenty decimal digits. *)
Definition Sprintf_d (u : Z) : string := fmtDigits 20 u "".

Definition maxUint64 : Z := 2 ^ 64 - 1.
Definition cutoff : Z := maxUint64 / 10 + 1.

(** The loop of [strconv.ParseUint(s, 10, 64)] from the accumulator
    [n]: a byte that is no digit is a syntax error, a value that does
    not fit is a range error; both are [None]. *)
Fixpoint parseLoop (n : Z) (s : string) : option Z :=
  match s with
  | EmptyString => Some n
  | String c s' =>
      match digit_val c with
      | None => None
      | Some d =>
          if cutoff <=? n then None
          else
            let n10 := n * 10 in
            let n1 := (n10 + d) mod 2 ^ 64 in
            if (n1 <? n10) || (maxUint64 <? n1) then None
            else parseLoop n1 s'
      end
  end.

Definition ParseUint (s : string) : option Z :=
  match s with
  | EmptyString => None
  | _ => parseLoop 0 s
  end.

(** The number a string of decimal digits denotes, continuing from
    [n]; no bound. *)
Fixpoint digitsValue (n : Z) (s : string) : option Z :=
  match s with
  | EmptyString => Some n
  | String c s' =>
      match digit_val c with
      | None => None
      | Some d => digitsValue (n * 10 + d) s'
      end
  end.

End Go.

(** ** Package [data]: the Sui client *)

Module data.

Import Trace.

Record Config : Type := {
  PackageID : string;
  ModuleName : string;
  PoolID : string
}.

Record SuiEvent : Type := {
  Type_ : string;
  ParsedJson : value
}.

Record TransactionBlockResponse : Type := {
  Digest : string;
  Effects : gmap string value;
  Events : list SuiEvent
}.

Record MoveCallRequest : Type := {
  Signer : string;
  PackageObjectId : string;
  Module_ : string;
  Function : string;
  TypeArguments : list string;
  Arguments : list value;
  Gas : string;
  GasBudget : string
}.

(** A coin as [suix_getCoins] lists it. *)
Abbreviation coin := (gmap string value) (only parsing).

(** The result object of [suix_getCoins]. *)
Record CoinsPage : Type := {
  Data : list coin;
  NextCursor : option string;
  HasNextPage : bool
}.

(** What comes back for one JSON-RPC request.  [Decoded None] is an
    envelope whose result does not unmarshal into the Go value the
    caller decodes it into. *)
Inductive reply (A : Type) : Type :=
| Unreachable
| Garbled
| Remote (code : Z) (message : string)
| Decoded (r : option A).
Arguments Unreachable {A}.
Arguments Garbled {A}.
Arguments Remote {A} code message.
Arguments Decoded {A} r.

(** Everything outside the program: the node behind [rpcURL], one
    function per JSON-RPC method the client calls, and the primitives
    of [encoding/base64] and [crypto/ed25519].  Byte sequences are
    strings. *)
Record Env : Type := {
  suix_getCoins : string → string → option string → Z → reply CoinsPage;
  unsafe_moveCall : MoveCallRequest → reply string;
  sui_executeTransactionBlock : string → list string → reply TransactionBlockResponse;
  DecodeString : string → option string;
  EncodeToString : string → string;
  Sign : string → string → string
}.

Inductive rpc_call : Type :=
| CallGetCoins (owner coinType : string) (cursor : option string) (limit : Z)
| CallMoveCall (req : MoveCallRequest)
| CallExecute (txBytes : string) (signatures : list string).

(** The lines the client writes with [fmt.Printf]. *)
Inductive line : Type :=
| EventEmitted (parsedJson : value)       (* "Event emitted: %s" *)
| EventNotFound (eventType : string)      (* "Expected event %s not found in transaction events" *)
| WinEvent (parsedJson : value).          (* "Win event: winner=%s, ..." *)

Inductive event : Type :=
| Rpc (c : rpc_call)
| Print (l : line).

Record SuiClient : Type := {
  privateKey : string;
  publicKey : string;
  address : string;
  config : Config
}.

(** [m[k].(string)]: the unchecked assertion panics on a missing key
    and on a value that is no string. *)
Definition assertString (m : gmap string value) (k : string) : outcome string :=
  match index m k with
  | VStr s => Ok s
  | _ => Panic (PanicTypeAssertion k)
  end.

(** [v != "success"] for an [interface{}] [v]. *)
Definition notSuccess (v : value) : bool :=
  match v with
  | VStr s => bool_decide (s ≠ "success")
  | _ => true
  end.

(** [json.Unmarshal(event.ParsedJson, &winEvent)] succeeds on an
    object whose listed fields, where present, are strings and
    unsigned 64-bit numbers. *)
Definition isStringField (m : gmap string value) (k : string) : bool :=
  match m !! k with
  | None | Some VNil | Some (VStr _) => true
  | _ => false
  end.
Definition isUintField (m : gmap string value) (k : string) : bool :=
  match m !! k with
  | None | Some VNil => true
  | Some (VNum z) => (0 <=? z) && (z <=? Go.maxUint64)
  | _ => false
  end.
Definition decodesAsWinEvent (v : value) : bool :=
  match v with
  | VNil => true
  | VMap m =>
      forallb (isStringField m) ["requester"; "accepter"; "winner"; "api_caller"]
      && forallb (isUintField m)
           ["requester_score"; "accepter_score"; "prize_amount"; "api_fee";
            "escrow_fee"; "total_stake"; "timestamp"]
  | _ => false
  end.

Section WithEnv.

Variable env : Env.

(** One HTTPS POST, then the envelope is decoded and its error
    object, when there is one, becomes the error. *)
Definition makeRPCCall {A} (call : rpc_call) (rep : reply A) : M event (option A) :=
  emit (Rpc call);;
  match rep with
  | Unreachable => fail ErrRequest
  | Garbled => fail ErrDecode
  | Remote code message => fail (ErrRPC code message)
  | Decoded r => ret r
  end.

Definition GetCoins (s : SuiClient) (coinType : string) : M event (list coin) :=
  try (makeRPCCall (CallGetCoins (address s) coinType None 10)
         (suix_getCoins env (address s) coinType None 10))
    id
    (λ resp,
      match resp with
      | None => fail ErrParseCoins
      | Some result => ret (Data result)
      end).

Definition signTransaction (s : SuiClient) (txBytes : string) : outcome string :=
  match DecodeString env txBytes with
  | None => Err ErrDecodeTxBytes
  | Some txBytesDecoded =>
      let signature := Sign env (privateKey s) txBytesDecoded in
      let suiSignature := String "000"%char (signature +:+ publicKey s) in
      Ok (EncodeToString env suiSignature)
  end.

(** The scan for the expected event: the first match is printed and
    ends the scan; the result is [eventFound]. *)
Fixpoint eventLoop (eventType : string) (events : list SuiEvent) : M event bool :=
  match events with
  | [] => ret false
  | ev :: rest =>
      if bool_decide (Type_ ev = eventType)
      then emit (Print (EventEmitted (ParsedJson ev)));; ret true
      else eventLoop eventType rest
  end.

Definition executeTransaction (s : SuiClient) (moveCallReq : MoveCallRequest)
    (expectedEventSuffix : string) : M event string :=
  try (makeRPCCall (CallMoveCall moveCallReq) (unsafe_moveCall env moveCallReq))
    ErrBuild (λ resp,
  match resp with
  | None => fail ErrParseTxBytes
  | Some txBytes =>
  try (lift (signTransaction s txBytes)) ErrSign (λ signature,
  try (makeRPCCall (CallExecute txBytes [signature])
         (sui_executeTransactionBlock env txBytes [signature]))
    ErrExecute (λ execResp,
  match execResp with
  | None => fail ErrParseResult
  | Some txResult =>
      match Effects txResult !! "status" with
      | Some (VMap status) =>
          if notSuccess (index status "status")
          then fail (ErrTxFailed status) else ret tt
      | _ => ret tt
      end;;
      let eventType :=
        PackageID (config s) +:+ "::" +:+ ModuleName (config s) +:+ "::" +:+ expectedEventSuffix in
      eventFound ← eventLoop eventType (Events txResult);
      (if negb eventFound then emit (Print (EventNotFound eventType)) else ret tt);;
      ret (Digest txResult)
  end))
  end).

(** The scan of [ExternalStake] for a gas coin: the value of
    [gasCoin] when the loop ends. *)
Fixpoint gasCoinLoop (requesterCoinID accepterCoinID : string) (coins : list coin)
    : outcome string :=
  match coins with
  | [] => Ok ""
  | coin :: rest =>
      coinId ← assertString coin "coinObjectId";
      if bool_decide (coinId ≠ requesterCoinID) && bool_decide (coinId ≠ accepterCoinID)
      then Ok coinId
      else gasCoinLoop requesterCoinID accepterCoinID rest
  end.

(** The scan followed by [if gasCoin == "" { return ..., "no gas coin available" }]. *)
Definition selectGasCoin (requesterCoinID accepterCoinID : string) (coins : list coin)
    : outcome string :=
  gasCoin ← gasCoinLoop requesterCoinID accepterCoinID coins;
  if bool_decide (gasCoin = "") then Err ErrNoGasCoin else Ok gasCoin.

Definition stakeMoveCall (s : SuiClient) (requesterCoinID accepterCoinID : string)
    (amount : Z) (gasCoin : string) : MoveCallRequest :=
  {| Signer := address s;
     PackageObjectId := PackageID (config s);
     Module_ := ModuleName (config s);
     Function := "external_stake";
     TypeArguments := ["0x2::sui::SUI"];
     Arguments := [VStr (PoolID (config s)); VStr requesterCoinID;
                   VStr accepterCoinID; VStr (Go.Sprintf_d amount)];
     Gas := gasCoin;
     GasBudget := "10000000" |}.

Definition ExternalStake (s : SuiClient) (requesterCoinID accepterCoinID : string)
    (amount : Z) : M event string :=
  if bool_decide (requesterCoinID = "") || bool_decide (accepterCoinID = "")
  then fail ErrBothCoinIDs
  else if amount =? 0 then fail ErrStakeAmount
  else
    try (GetCoins s "0x2::sui::SUI") ErrCoinsForGas (λ coins,
      gasCoin ← lift (selectGasCoin requesterCoinID accepterCoinID coins);
      executeTransaction s
        (stakeMoveCall s requesterCoinID accepterCoinID amount gasCoin)
        "ExternalGameStaked").

Definition payWinnerMoveCall (s : SuiClient) (requesterAddress accepterAddress : string)
    (requesterScore accepterScore stakeAmount : Z) (gas : string) : MoveCallRequest :=
  {| Signer := address s;
     PackageObjectId := PackageID (config s);
     Module_ := ModuleName (config s);
     Function := "external_pay_winner";
     TypeArguments := [];
     Arguments := [VStr (PoolID (config s)); VStr requesterAddress; VStr accepterAddress;
                   VStr (Go.Sprintf_d requesterScore); VStr (Go.Sprintf_d accepterScore);
                   VStr (Go.Sprintf_d stakeAmount)];
     Gas := gas;
     GasBudget := "10000000" |}.

(** The event scan of [ExternalPayWinner]: every matching event that
    decodes is printed; nothing is returned. *)
Fixpoint winEventLoop (eventType : string) (events : list SuiEvent) : M event unit :=
  match events with
  | [] => ret tt
  | ev :: rest =>
      (if bool_decide (Type_ ev = eventType) && decodesAsWinEvent (ParsedJson ev)
       then emit (Print (WinEvent (ParsedJson ev))) else ret tt);;
      winEventLoop eventType rest
  end.

Definition ExternalPayWinner (s : SuiClient) (requesterAddress accepterAddress : string)
    (requesterScore accepterScore stakeAmount : Z) : M event string :=
  try (GetCoins s "0x2::sui::SUI") ErrGetCoins (λ coins,
  match coins with
  | [] => fail ErrNoSUICoins
  | coin0 :: _ =>
  gas ← lift (assertString coin0 "coinObjectId");
  let moveCallReq :=
    payWinnerMoveCall s requesterAddress accepterAddress
      requesterScore accepterScore stakeAmount gas in
  try (makeRPCCall (CallMoveCall moveCallReq) (unsafe_moveCall env moveCallReq))
    ErrBuild (λ resp,
  match resp with
  | None => fail ErrParseTxBytes
  | Some txBytes =>
  try (lift (signTransaction s txBytes)) ErrSign (λ signature,
  try (makeRPCCall (CallExecute txBytes [signature])
         (sui_executeTransactionBlock env txBytes [signature]))
    ErrExecute (λ execResp,
  match execResp with
  | None => fail ErrParseResult
  | Some txResult =>
      let eventType :=
        PackageID (config s) +:+ "::" +:+ ModuleName (config s) +:+ "::ExternalGameCompleted" in
      winEventLoop eventType (Events txResult);;
      ret (Digest txResult)
  end))
  end)
  end).

(** The scan of [GetSufficientCoins]: [suitableCoins] when the loop
    ends.  A balance that does not parse is passed over; the length
    is compared with [count] only after a coin was appended. *)
Fixpoint sufficientLoop (requiredAmount count : Z) (coins : list coin)
    (suitableCoins : list string) : outcome (list string) :=
  match coins with
  | [] => Ok suitableCoins
  | coin :: rest =>
      balanceStr ← assertString coin "balance";
      match Go.ParseUint balanceStr with
      | None => sufficientLoop requiredAmount count rest suitableCoins
      | Some balance =>
          if requiredAmount <=? balance then
            coinId ← assertString coin "coinObjectId";
            let suitableCoins' := suitableCoins ++ [coinId] in
            if count <=? Z.of_nat (length suitableCoins')
            then Ok suitableCoins'
            else sufficientLoop requiredAmount count rest suitableCoins'
          else sufficientLoop requiredAmount count rest suitableCoins
      end
  end.

(** The scan followed by the length check. *)
Definition selectSufficientCoins (requiredAmount count : Z) (coins : list coin)
    : outcome (list string) :=
  suitableCoins ← sufficientLoop requiredAmount count coins [];
  if Z.of_nat (length suitableCoins) <? count
  then Err (ErrInsufficient count requiredAmount (Z.of_nat (length suitableCoins)))
  else Ok suitableCoins.

Definition GetSufficientCoins (s : SuiClient) (requiredAmount count : Z)
    : M event (list string) :=
  try (GetCoins s "0x2::sui::SUI") ErrGetCoins (λ coins,
    lift (selectSufficientCoins requiredAmount count coins)).

Definition GetCoinsByType (s : SuiClient) (coinType : string) (cursor : option string)
    (limit : Z) : M event (list coin * option string) :=
  try (makeRPCCall (CallGetCoins (address s) coinType cursor limit)
         (suix_getCoins env (address s) coinType cursor limit))
    id
    (λ resp,
      match resp with
      | None => fail ErrParseCoins
      | Some result =>
          let nextCursor := if HasNextPage result then NextCursor result else None in
          ret (Data result, nextCursor)
      end).

(** The loop of [GetAllCoins], which has no bound of its own: [None]
    when [fuel] pages were read and the node still announces more. *)
Fixpoint allCoinsLoop (fuel : nat) (s : SuiClient) (coinType : string)
    (cursor : option string) (allCoins : list coin) : M event (option (list coin)) :=
  match fuel with
  | O => ret None
  | S fuel' =>
      '(coins, nextCursor) ← GetCoinsByType s coinType cursor 50;
      let allCoins' := allCoins ++ coins in
      match nextCursor with
      | None => ret (Some allCoins')
      | Some c => allCoinsLoop fuel' s coinType (Some c) allCoins'
      end
  end.

Definition GetAllCoins (fuel : nat) (s : SuiClient) (coinType : string)
    : M event (option (list coin)) :=
  allCoinsLoop fuel s coinType None [].

End WithEnv.

End data.

(** ** Packages [models], [request] and [response] *)

Module models.

Module Stake.
Record t : Type := {
  ID : string;
  RequesterCoinID : string;
  AccepterCoinID : string;
  RequesterAddress : string;
  AccepterAddress : string;
  StakeAmount : Z;
  Status : string;
  Timestamp : Z;
  TransactionHash : string
}.
End Stake.

Module PayWinner.
Record t : Type := {
  RequesterAddress : string;
  AccepterAddress : string;
  RequesterScore : Z;
  AccepterScore : Z;
  Winner : string;
  PrizeAmount : Z;
  APIFee : Z;
  EscrowFee : Z;
  TotalStake : Z;
  Timestamp : Z;
  TransactionHash : string;
  StakeAmount : Z
}.
End PayWinner.

End models.

Module request.

Module StakeRequest.
Record t : Type := {
  RequesterCoinID : string;
  AccepterCoinID : string;
  RequesterAddress : string;
  AccepterAddress : string;
  StakeAmount : Z
}.
End StakeRequest.

Module PayWinnerRequest.
Record t : Type := {
  RequesterAddress : string;
  AccepterAddress : string;
  RequesterScore : Z;
  AccepterScore : Z;
  StakeAmount : Z;
  Timestamp : Z;
  TransactionHash : string
}.
End PayWinnerRequest.

End request.

Module response.

(** A response text: a literal, or [fmt.Sprintf(format, err)]. *)
Inductive text : Type :=
| Text (s : string)
| Sprintf_v (format : string) (e : error).

Module StakeResponse.
Record t : Type := {
  Success : bool;
  TransactionDigest : string;
  Message : text;
  Error : text
}.
End StakeResponse.

Module PayWinnerResponse.
Record t : Type := {
  Success : bool;
  TransactionDigest : string;
  Message : text;
  Error : text
}.
End PayWinnerResponse.

End response.

(** ** Package [interfaces] *)

Module interfaces.

(** The two methods of [SuiClientInterface] that the game service
    calls.  An interface value is the record of its methods. *)
Record SuiClientInterface : Type := {
  ExternalStake : string → string → Z → Trace.M data.event string;
  ExternalPayWinner : string → string → Z → Z → Z → Trace.M data.event string
}.

(** The [interface{}] argument of [InsertOne]. *)
Inductive document : Type :=
| StakeDoc (d : models.Stake.t)
| PayWinnerDoc (d : models.PayWinner.t).

(** [GetDatabase(db).Collection(coll).InsertOne(ctx, doc)]: the error
    of the call, if any. *)
Record MongoClientInterface : Type := {
  InsertOne : string → string → document → option error
}.

End interfaces.

(** [*SuiClient] implements [SuiClientInterface]. *)
Definition SuiClient_interface (env : data.Env) (s : data.SuiClient)
    : interfaces.SuiClientInterface :=
  {| interfaces.ExternalStake := data.ExternalStake env s;
     interfaces.ExternalPayWinner := data.ExternalPayWinner env s |}.

(** ** Package [service]: the game service *)

Module service.

Import Trace response.

(** The lines written with [log.Printf]. *)
Inductive log_line : Type :=
| LogProcessingStake (amount : Z)
| LogParticipants (requester accepter : string)
| LogStakeFailed (e : error)
| LogSaveFailed (e : error)
| LogStakeOk (txDigest : string)
| LogProcessingPayment (requesterScore accepterScore stake : Z)
| LogPayWinnerFailed (e : error)
| LogPayWinnerOk (txDigest : string).

Inductive event : Type :=
| Chain (e : data.event)
| Log (l : log_line)
| Insert (database collection : string) (doc : interfaces.document).

Record GameService : Type := {
  suiClient : interfaces.SuiClientInterface;
  mongoClient : interfaces.MongoClientInterface
}.

(** [collection.InsertOne(...)], then the warning when it failed. *)
Definition insertOrWarn (s : GameService) (collection : string)
    (doc : interfaces.document) : M event unit :=
  emit (Insert "jollfi_games" collection doc);;
  match interfaces.InsertOne (mongoClient s) "jollfi_games" collection doc with
  | Some err => emit (Log (LogSaveFailed err))
  | None => ret tt
  end.

Section WithClock.

(** [time.Now().Unix()] when the record is built *)
Variable now : Z.

Definition StakeGame (s : GameService) (req : request.StakeRequest.t)
    : M event (StakeResponse.t * option error) :=
  let '(request.StakeRequest.Build_t requesterCoinID accepterCoinID
          requesterAddress accepterAddress stakeAmount) := req in
  if bool_decide (requesterCoinID = "") || bool_decide (accepterCoinID = "")
     || (stakeAmount =? 0)
  then ret ({| StakeResponse.Success := false;
               StakeResponse.TransactionDigest := "";
               StakeResponse.Message := Text "";
               StakeResponse.Error :=
                 Text "Invalid stake request: missing required fields" |},
            Some ErrInvalidStake)
  else if bool_decide (requesterAddress = "") || bool_decide (accepterAddress = "")
  then ret ({| StakeResponse.Success := false;
               StakeResponse.TransactionDigest := "";
               StakeResponse.Message := Text "";
               StakeResponse.Error :=
                 Text "Invalid stake request: addresses are required" |},
            Some ErrAddresses)
  else
    emit (Log (LogProcessingStake stakeAmount));;
    emit (Log (LogParticipants requesterAddress accepterAddress));;
    handle
      (embed Chain
         (interfaces.ExternalStake (suiClient s) requesterCoinID accepterCoinID stakeAmount))
      (λ err,
        emit (Log (LogStakeFailed err));;
        ret ({| StakeResponse.Success := false;
                StakeResponse.TransactionDigest := "";
                StakeResponse.Message := Text "";
                StakeResponse.Error :=
                  Sprintf_v "Blockchain transaction failed: %v" err |},
             Some err))
      (λ txDigest,
        let stake :=
          {| models.Stake.ID := "";
             models.Stake.RequesterCoinID := requesterCoinID;
             models.Stake.AccepterCoinID := accepterCoinID;
             models.Stake.RequesterAddress := requesterAddress;
             models.Stake.AccepterAddress := accepterAddress;
             models.Stake.StakeAmount := stakeAmount;
             models.Stake.Status := "completed";
             models.Stake.Timestamp := now;
             models.Stake.TransactionHash := txDigest |} in
        insertOrWarn s "stakes" (interfaces.StakeDoc stake);;
        emit (Log (LogStakeOk txDigest));;
        ret ({| StakeResponse.Success := true;
                StakeResponse.TransactionDigest := txDigest;
                StakeResponse.Message :=
                  Text "Stake successful. 10% fee deducted from each player by blockchain.";
                StakeResponse.Error := Text "" |},
             None)).

Definition PayWinner (s : GameService) (req : request.PayWinnerRequest.t)
    : M event (PayWinnerResponse.t * option error) :=
  let '(request.PayWinnerRequest.Build_t requesterAddress accepterAddress
          requesterScore accepterScore stakeAmount _ _) := req in
  if bool_decide (requesterAddress = "") || bool_decide (accepterAddress = "")
     || (stakeAmount =? 0)
  then ret ({| PayWinnerResponse.Success := false;
               PayWinnerResponse.TransactionDigest := "";
               PayWinnerResponse.Message := Text "";
               PayWinnerResponse.Error :=
                 Text "Invalid pay winner request: missing required fields" |},
            Some ErrInvalidPayWinner)
  else
    emit (Log (LogProcessingPayment requesterScore accepterScore stakeAmount));;
    handle
      (embed Chain
         (interfaces.ExternalPayWinner (suiClient s) requesterAddress accepterAddress
            requesterScore accepterScore stakeAmount))
      (λ err,
        emit (Log (LogPayWinnerFailed err));;
        ret ({| PayWinnerResponse.Success := false;
                PayWinnerResponse.TransactionDigest := "";
                PayWinnerResponse.Message := Text "";
                PayWinnerResponse.Error :=
                  Sprintf_v "Blockchain transaction failed: %v" err |},
             Some err))
      (λ txDigest,
        let payWinner :=
          {| models.PayWinner.RequesterAddress := requesterAddress;
             models.PayWinner.AccepterAddress := accepterAddress;
             models.PayWinner.RequesterScore := requesterScore;
             models.PayWinner.AccepterScore := accepterScore;
             models.PayWinner.Winner := "";
             models.PayWinner.PrizeAmount := 0;
             models.PayWinner.APIFee := 0;
             models.PayWinner.EscrowFee := 0;
             models.PayWinner.TotalStake := 0;
             models.PayWinner.Timestamp := now;
             models.PayWinner.TransactionHash := txDigest;
             models.PayWinner.StakeAmount := stakeAmount |} in
        insertOrWarn s "pay_winners" (interfaces.PayWinnerDoc payWinner);;
        emit (Log (LogPayWinnerOk txDigest));;
        ret ({| PayWinnerResponse.Success := true;
                PayWinnerResponse.TransactionDigest := txDigest;
                PayWinnerResponse.Message :=
                  Text "Winner payment processed by blockchain with all fees calculated automatically.";
                PayWinnerResponse.Error := Text "" |},
             None)).

End WithClock.

End service.

(** ** The selection rules in the words of the specification *)

Module spec.

(** The id a coin carries, [""] when it carries none. *)
Definition coinId (c : gmap string value) : string :=
  match index c "coinObjectId" with
  | VStr s => s
  | _ => ""
  end.

(** A coin whose balance is a decimal [uint64]. *)
Definition balanceOf (c : gmap string value) : option Z :=
  match index c "balance" with
  | VStr b => Go.ParseUint b
  | _ => None
  end.

(** "Linearly scan and return the first coin whose id is not in the
    exclusion set; fails with NoGasCoinAvailable if every coin is
    excluded." *)
Definition selectGasCoin (excluding : gset string) (ids : list string) : outcome string :=
  match List.find (λ id, bool_decide (id ∉ excluding)) ids with
  | Some id => Ok id
  | None => Err ErrNoGasCoin
  end.

(** "Its individual balance meets or exceeds minAmount." *)
Definition qualifies (minAmount : Z) (c : gmap string value) : bool :=
  match balanceOf c with
  | Some balance => minAmount <=? balance
  | None => false
  end.

(** "Greedily collect coins whose individual balance meets or exceeds
    minAmount, stopping once count coins are collected; fails with
    InsufficientCoins{needed, found} if the scan exhausts without
    enough qualifying coins." *)
Definition selectPaymentCoins (minAmount count : Z) (coins : list (gmap string value))
    : outcome (list string) :=
  let found := coinId <$> List.filter (qualifies minAmount) coins in
  if Z.of_nat (length found) <? count
  then Err (ErrInsufficient count minAmount (Z.of_nat (length found)))
  else Ok (take (Z.to_nat count) found).

(** A coin that the payment scan can read: its balance is a decimal
    [uint64]. *)
Definition wellFormed (c : gmap string value) : bool :=
  match balanceOf c with
  | Some _ => true
  | None => false
  end.

(** A coin that carries a non-empty id. *)
Definition identified (c : gmap string value) : Prop :=
  ∃ id, c !! "coinObjectId" = Some (VStr id) ∧ id ≠ "".

(** A coin whose id and balance are strings. *)
Definition typed (c : gmap string value) : Prop :=
  (∃ b, c !! "balance" = Some (VStr b)) ∧ ∃ id, c !! "coinObjectId" = Some (VStr id).

End spec.

(** ** A node that serves a wallet in pages *)

Module node.

Import data.

Definition mkCoin (id balance : string) : gmap string value :=
  {[ "coinObjectId" := VStr id; "balance" := VStr balance ]}.

(** A coin listed with its id only. *)
Definition bareCoin (id : string) : gmap string value :=
  {[ "coinObjectId" := VStr id ]}.

(** The coins listed after the coin [cursor]. *)
Fixpoint after (cursor : string) (wallet : list (gmap string value))
    : list (gmap string value) :=
  match wallet with
  | [] => []
  | c :: rest => if bool_decide (spec.coinId c = cursor) then rest else after cursor rest
  end.

(** [suix_getCoins(owner, coinType, cursor, limit)]: at most [limit]
    coins from the cursor on, and whether more follow. *)
Definition page (wallet : list (gmap string value)) (cursor : option string) (limit : Z)
    : CoinsPage :=
  let rest := match cursor with None => wallet | Some c => after c wallet end in
  let data := take (Z.to_nat limit) rest in
  {| Data := data;
     NextCursor := spec.coinId <$> last data;
     HasNextPage := bool_decide (length data < length rest)%nat |}.

(** A node that lists [wallet], builds every move call into
    [txBytes] and answers every execution with [txResult]; base64 is
    taken to be the identity and every signature is ["sig"]. *)
Definition serving (wallet : list (gmap string value)) (txBytes : string)
    (txResult : TransactionBlockResponse) : Env :=
  {| suix_getCoins := λ _ _ cursor limit, Decoded (Some (page wallet cursor limit));
     unsafe_moveCall := λ _, Decoded (Some txBytes);
     sui_executeTransactionBlock := λ _ _, Decoded (Some txResult);
     DecodeString := Some;
     EncodeToString := id;
     Sign := λ _ _, "sig" |}.

Definition client : SuiClient :=
  {| privateKey := "k"; publicKey := "p"; address := "0xa11ce";
     config := {| PackageID := "0xpkg"; ModuleName := "game"; PoolID := "0xpool" |} |}.

(** The signature envelope of [client] over any bytes at such a node:
    the flag byte 0x00, the signature, the public key. *)
Definition envelope : string := String "000"%char "sigp".

Definition succeeded (digest : string) : TransactionBlockResponse :=
  {| Digest := digest;
     Effects := {[ "status" := VMap {[ "status" := VStr "success" ]} ]};
     Events := [] |}.

Definition failed (digest : string) : TransactionBlockResponse :=
  {| Digest := digest;
     Effects := {[ "status" := VMap {[ "status" := VStr "failure" ]} ]};
     Events := [] |}.

(** Three coins, as in the staking scenario. *)
Definition wallet3 : list (gmap string value) :=
  [mkCoin "0xc1" "500"; mkCoin "0xc2" "300"; mkCoin "0xc3" "200"].

(** Ten coins of balance 1 followed by two coins of balance 500. *)
Definition wallet12 : list (gmap string value) :=
  ((λ id, mkCoin id "1") <$>
     ["0xs0"; "0xs1"; "0xs2"; "0xs3"; "0xs4"; "0xs5"; "0xs6"; "0xs7"; "0xs8"; "0xs9"])
  ++ [mkCoin "0xb1" "500"; mkCoin "0xb2" "500"].

(** A storage collaborator whose inserts succeed, and one whose
    inserts fail. *)
Definition storageUp : interfaces.MongoClientInterface :=
  {| interfaces.InsertOne := λ _ _ _, None |}.
Definition storageDown : interfaces.MongoClientInterface :=
  {| interfaces.InsertOne := λ _ _ _, Some (ErrStorage "connection refused") |}.

(** The game service over the client at the node [env]. *)
Definition gameService (env : Env) (storage : interfaces.MongoClientInterface)
    : service.GameService :=
  {| service.suiClient := SuiClient_interface env client;
     service.mongoClient := storage |}.

Definition stakeRequest : request.StakeRequest.t :=
  {| request.StakeRequest.RequesterCoinID := "0xc1";
     request.StakeRequest.AccepterCoinID := "0xc2";
     request.StakeRequest.RequesterAddress := "0xa";
     request.StakeRequest.AccepterAddress := "0xb";
     request.StakeRequest.StakeAmount := 100 |}.

Definition payWinnerRequest : request.PayWinnerRequest.t :=
  {| request.PayWinnerRequest.RequesterAddress := "0xa";
     request.PayWinnerRequest.AccepterAddress := "0xb";
     request.PayWinnerRequest.RequesterScore := 3;
     request.PayWinnerRequest.AccepterScore := 1;
     request.PayWinnerRequest.StakeAmount := 100;
     request.PayWinnerRequest.Timestamp := 0;
     request.PayWinnerRequest.TransactionHash := "" |}.

End node.

(** ** Package [data]: the other methods of the client *)

(** A Go [error] built at a call site outside the operations above:
    a constant text, a format around another error, or an error that is
    passed on as it came.  Where the cause is an error of
    [encoding/json], the format alone is kept. *)
Inductive failure : Type :=
| Errorf (message : string)
| Errorf_v (format : string) (cause : error)
| Errorf_f (format : string) (cause : failure)
| Same (e : error).

Module suiclient.

Import Trace data.

(** The requests of a trace, in the order they were sent. *)
Definition requests (t : list event) : list rpc_call :=
  omap (λ ev, match ev with Rpc c => Some c | Print _ => None end) t.

(** The pages that [GetAllCoins] walks through from [cursor]: [pages]
    are the pages that announce a successor and name its cursor, [final]
    is the reply that ends the walk. *)
Inductive Pages (env : Env) (owner coinType : string)
    : option string → list CoinsPage → reply CoinsPage → Prop :=
| pages_end cursor final :
    suix_getCoins env owner coinType cursor 50 = final →
    (∀ p c, final = Decoded (Some p) → HasNextPage p = true → NextCursor p = Some c → False) →
    Pages env owner coinType cursor [] final
| pages_next cursor p c pages final :
    suix_getCoins env owner coinType cursor 50 = Decoded (Some p) →
    HasNextPage p = true →
    NextCursor p = Some c →
    Pages env owner coinType (Some c) pages final →
    Pages env owner coinType cursor (p :: pages) final.

(** The loop of [GetTotalBalance]: a balance that is no string or does
    not parse is passed over; the sum is a [uint64]. *)
Fixpoint totalBalanceLoop (coins : list (gmap string value)) (totalBalance : Z) : Z :=
  match coins with
  | [] => totalBalance
  | coin :: rest =>
      match index coin "balance" with
      | VStr balanceStr =>
          match Go.ParseUint balanceStr with
          | None => totalBalanceLoop rest totalBalance
          | Some balance => totalBalanceLoop rest ((totalBalance + balance) mod 2 ^ 64)
          end
      | _ => totalBalanceLoop rest totalBalance
      end
  end.

Section WithEnv.

Variable env : Env.

(** [None] when [GetAllCoins] ran out of [fuel]. *)
Definition GetTotalBalance (fuel : nat) (s : SuiClient) (coinType : string)
    : M event (option Z) :=
  try (GetAllCoins env fuel s coinType) id
    (λ fetched,
      match fetched with
      | None => ret None
      | Some coins => ret (Some (totalBalanceLoop coins 0))
      end).


End WithEnv.

(** The [gasUsed] object of a dry run, decoded: three [uint64]. *)
Record GasUsed : Type := {
  ComputationCost : Z;
  StorageCost : Z;
  StorageRebate : Z
}.

(** The node again, for the two methods below. *)
Record Queries : Type := {
  sui_dryRunTransactionBlock : string → reply GasUsed;
  sui_getObject : string → reply (gmap string value)
}.

Inductive query : Type :=
| DryRun (txBytes : string)
| GetObject (objectId : string).

(** [makeRPCCall] for these methods. *)
Definition makeQuery {A} (q : query) (rep : reply A) : M query (option A) :=
  emit q;;
  match rep with
  | Unreachable => fail ErrRequest
  | Garbled => fail ErrDecode
  | Remote code message => fail (ErrRPC code message)
  | Decoded r => ret r
  end.

Section WithQueries.

Variable env : Env.
Variable node : Queries.

(** [computationCost + storageCost - storageRebate] on [uint64]. *)
Definition EstimateGas (txBytes : string) : M query (Z * option failure) :=
  let txBytesStr := EncodeToString env txBytes in
  handle (makeQuery (DryRun txBytesStr) (sui_dryRunTransactionBlock node txBytesStr))
    (λ err, ret (0, Some (Errorf_v "failed to estimate gas: %v" err)))
    (λ resp,
      match resp with
      | None => ret (0, Some (Errorf "failed to parse gas estimation: %v"))
      | Some gasUsed =>
          let totalGas :=
            ((ComputationCost gasUsed + StorageCost gasUsed) mod 2 ^ 64
             - StorageRebate gasUsed) mod 2 ^ 64 in
          ret (totalGas, None)
      end).

(** The pool object, or the error; a [nil] map is the empty map. *)
Definition GetStakePool (poolID : string) : M query (gmap string value * option failure) :=
  if bool_decide (poolID = "") then ret (∅, Some (Errorf "pool ID is required"))
  else
    handle (makeQuery (GetObject poolID) (sui_getObject node poolID))
      (λ err, ret (∅, Some (Errorf_v "failed to get stake pool: %v" err)))
      (λ resp,
        match resp with
        | None => ret (∅, Some (Errorf "failed to parse stake pool response: %v"))
        | Some result =>
            match result !! "data" with
            | Some (VMap dataMap) =>
                match index dataMap "objectId" with
                | VNil => ret (∅, Some (Errorf "stake pool not found"))
                | _ => ret (result, None)
                end
            | _ => ret (result, None)
            end
        end).

Definition ValidatePoolConfig (s : SuiClient) : M query (option failure) :=
  if bool_decide (PoolID (config s) = "") then ret (Some (Errorf "pool ID not configured"))
  else if bool_decide (PackageID (config s) = "")
  then ret (Some (Errorf "package ID not configured"))
  else if bool_decide (ModuleName (config s) = "")
  then ret (Some (Errorf "module name not configured"))
  else
    '(_, err) ← GetStakePool (PoolID (config s));
    match err with
    | Some err => ret (Some (Errorf_f "invalid pool configuration: %v" err))
    | None => ret None
    end.

End WithQueries.

End suiclient.

(** ** Package [service]: the history queries *)

Module history.

Import Trace response.

Record StakeHistoryResponse : Type := {
  StakeSuccess : bool;
  Stakes : list models.Stake.t;
  StakeCount : Z;
  StakeError : text
}.

Record GameHistoryResponse : Type := {
  GameSuccess : bool;
  Games : list models.PayWinner.t;
  GameCount : Z;
  GameError : text
}.

(** [options.Find().SetSort(sort).SetLimit(limit)] *)
Record FindOptions : Type := {
  Sort : value;
  Limit : Z
}.

(** A cursor as the service uses it: what [All] yields when it decodes
    into a slice of stakes or of games, and what [Close] returns. *)
Record MongoCursorInterface : Type := {
  AllStakes : error + list models.Stake.t;
  AllGames : error + list models.PayWinner.t;
  Close : option error
}.

(** [GetDatabase(db).Collection(coll).Find(ctx, filter, opts)] *)
Record MongoFindInterface : Type := {
  Find : string → string → value → FindOptions → error + MongoCursorInterface
}.

Inductive log_line : Type :=
| LogFetchStakesFailed (address : string) (e : error)
| LogDecodeStakesFailed (address : string) (e : error)
| LogRetrievedStakes (n : Z) (address : string)
| LogFetchGamesFailed (address : string) (e : error)
| LogDecodeGamesFailed (address : string) (e : error)
| LogRetrievedGames (n : Z) (address : string).

Inductive event : Type :=
| FindCall (database collection : string) (filter : value) (opts : FindOptions)
| AllCall
| CloseCall
| Log (l : log_line).

(** [bson.M{"$or": []bson.M{{"requester_address": address},
    {"accepter_address": address}}}] *)
Definition participantFilter (address : string) : value :=
  VMap {[ "$or" := VArr [VMap {[ "requester_address" := VStr address ]};
                         VMap {[ "accepter_address" := VStr address ]}] ]}.

(** Newest first, at most fifty. *)
Definition latest50 : FindOptions :=
  {| Sort := VMap {[ "timestamp" := VNum (-1) ]}; Limit := 50 |}.

Definition GetStakeHistory (mongoClient : MongoFindInterface) (address : string)
    : M event (StakeHistoryResponse * option failure) :=
  if bool_decide (address = "")
  then ret ({| StakeSuccess := false; Stakes := []; StakeCount := 0;
               StakeError := Text "Address is required" |},
            Some (Errorf "address is required"))
  else
    emit (FindCall "jollfi_games" "stakes" (participantFilter address) latest50);;
    match Find mongoClient "jollfi_games" "stakes" (participantFilter address) latest50 with
    | inl err =>
        emit (Log (LogFetchStakesFailed address err));;
        ret ({| StakeSuccess := false; Stakes := []; StakeCount := 0;
                StakeError := Sprintf_v "Failed to fetch stake history: %v" err |},
             Some (Same err))
    | inr cursor =>
        emit AllCall;;
        match AllStakes cursor with
        | inl err =>
            emit (Log (LogDecodeStakesFailed address err));;
            emit CloseCall;;
            ret ({| StakeSuccess := false; Stakes := []; StakeCount := 0;
                    StakeError := Sprintf_v "Failed to decode stakes: %v" err |},
                 Some (Same err))
        | inr stakes =>
            emit (Log (LogRetrievedStakes (Z.of_nat (length stakes)) address));;
            emit CloseCall;;
            ret ({| StakeSuccess := true; Stakes := stakes;
                    StakeCount := Z.of_nat (length stakes);
                    StakeError := Text "" |},
                 None)
        end
    end.

Definition GetGameHistory (mongoClient : MongoFindInterface) (address : string)
    : M event (GameHistoryResponse * option failure) :=
  if bool_decide (address = "")
  then ret ({| GameSuccess := false; Games := []; GameCount := 0;
               GameError := Text "Address is required" |},
            Some (Errorf "address is required"))
  else
    emit (FindCall "jollfi_games" "pay_winners" (participantFilter address) latest50);;
    match Find mongoClient "jollfi_games" "pay_winners" (participantFilter address) latest50 with
    | inl err =>
        emit (Log (LogFetchGamesFailed address err));;
        ret ({| GameSuccess := false; Games := []; GameCount := 0;
                GameError := Sprintf_v "Failed to fetch game history: %v" err |},
             Some (Same err))
    | inr cursor =>
        emit AllCall;;
        match AllGames cursor with
        | inl err =>
            emit (Log (LogDecodeGamesFailed address err));;
            emit CloseCall;;
            ret ({| GameSuccess := false; Games := []; GameCount := 0;
                    GameError := Sprintf_v "Failed to decode games: %v" err |},
                 Some (Same err))
        | inr games =>
            emit (Log (LogRetrievedGames (Z.of_nat (length games)) address));;
            emit CloseCall;;
            ret ({| GameSuccess := true; Games := games;
                    GameCount := Z.of_nat (length games);
                    GameError := Text "" |},
                 None)
        end
    end.

End history.

(** ** Package [routes]: request validation and the two posting handlers *)

Module routes.

Import Trace response.

(** [(c >= '0' && c <= '9') || (c >= 'a' && c <= 'f') || (c >= 'A' && c <= 'F')] *)
Definition isHexDigit (c : ascii) : bool :=
  let n := Z.of_N (N_of_ascii c) in
  ((48 <=? n) && (n <=? 57)) || ((97 <=? n) && (n <=? 102)) || ((65 <=? n) && (n <=? 70)).

(** The loop over [address[2:]].  The source ranges over runes; a byte
    above 0x7f belongs to a rune outside the three ranges (or to the
    replacement rune), so the test by bytes rejects the same strings. *)
Fixpoint hexLoop (hexPart : string) : option string :=
  match hexPart with
  | EmptyString => None
  | String c rest =>
      if isHexDigit c then hexLoop rest
      else Some "address contains invalid characters"
  end.

(** The error text, [None] for [nil]. *)
Definition validateSuiAddress (address : string) : option string :=
  let n := Z.of_nat (String.length address) in
  if (n <? 40) || (66 <? n) then Some "invalid address length"
  else if negb (String.prefix "0x" address) then Some "address must start with 0x"
  else hexLoop (String.substring 2 (String.length address - 2) address).

Definition validateStakeRequest (req : request.StakeRequest.t) : option string :=
  let '(request.StakeRequest.Build_t requesterCoinID accepterCoinID
          requesterAddress accepterAddress stakeAmount) := req in
  if bool_decide (requesterCoinID = "") then Some "requester_coin_id is required"
  else if bool_decide (accepterCoinID = "") then Some "accepter_coin_id is required"
  else if bool_decide (requesterAddress = "") then Some "requester_address is required"
  else if bool_decide (accepterAddress = "") then Some "accepter_address is required"
  else if stakeAmount =? 0 then Some "stake_amount must be greater than 0"
  else if bool_decide (requesterAddress = accepterAddress)
  then Some "requester and accepter addresses cannot be the same"
  else
    match validateSuiAddress requesterAddress with
    | Some err => Some ("invalid requester_address: " +:+ err)
    | None =>
        match validateSuiAddress accepterAddress with
        | Some err => Some ("invalid accepter_address: " +:+ err)
        | None => None
        end
    end.

Definition validatePayWinnerRequest (req : request.PayWinnerRequest.t) : option string :=
  let '(request.PayWinnerRequest.Build_t requesterAddress accepterAddress
          _ _ stakeAmount _ _) := req in
  if bool_decide (requesterAddress = "") then Some "requester_address is required"
  else if bool_decide (accepterAddress = "") then Some "accepter_address is required"
  else if stakeAmount =? 0 then Some "stake_amount must be greater than 0"
  else if bool_decide (requesterAddress = accepterAddress)
  then Some "requester and accepter addresses cannot be the same"
  else
    match validateSuiAddress requesterAddress with
    | Some err => Some ("invalid requester_address: " +:+ err)
    | None =>
        match validateSuiAddress accepterAddress with
        | Some err => Some ("invalid accepter_address: " +:+ err)
        | None => None
        end
    end.

(** The stake request as the handler decodes it: the amount is an
    [int64]. *)
Record tempStakeRequest : Type := {
  RequesterCoinID : string;
  AccepterCoinID : string;
  RequesterAddress : string;
  AccepterAddress : string;
  StakeAmount : Z
}.

(** What [io.ReadAll] and [json.Unmarshal] gave for the body: it could
    not be read, it is no JSON of the expected shape (with the
    decoder's message), or it decoded. *)
Inductive body (A : Type) : Type :=
| Unreadable
| Malformed (message : string)
| Parsed (a : A).
Arguments Unreadable {A}.
Arguments Malformed {A} message.
Arguments Parsed {A} a.

(** What [c.ShouldBindJSON] gave: its error, or the bound request. *)
Inductive binding (A : Type) : Type :=
| BindError (message : string)
| Bound (a : A).
Arguments BindError {A} message.
Arguments Bound {A} a.

(** The parts of the HTTP request the two handlers read. *)
Record Request (B : Type) : Type := {
  Method : string;
  Path : string;
  ContentType : string;
  Body : B
}.
Arguments Method {B} r.
Arguments Path {B} r.
Arguments ContentType {B} r.
Arguments Body {B} r.

Inductive event : Type :=
| Service (e : service.event)
| LogInvalidContentType (method path contentType : string).

Definition isJSON (contentType : string) : bool :=
  bool_decide (contentType = "application/json")
  || String.prefix "application/json;" contentType.

Definition badStake (message : string) : StakeResponse.t :=
  {| StakeResponse.Success := false;
     StakeResponse.TransactionDigest := "";
     StakeResponse.Message := Text "";
     StakeResponse.Error := Text message |}.

Definition badPayWinner (message : string) : PayWinnerResponse.t :=
  {| PayWinnerResponse.Success := false;
     PayWinnerResponse.TransactionDigest := "";
     PayWinnerResponse.Message := Text "";
     PayWinnerResponse.Error := Text message |}.

Section WithClock.

Variable now : Z.

(** The status code and the body that [c.JSON] writes. *)
Definition handleStakeGame (gameService : service.GameService)
    (c : Request (body tempStakeRequest)) : M event (Z * StakeResponse.t) :=
  if negb (isJSON (ContentType c))
  then
    emit (LogInvalidContentType (Method c) (Path c) (ContentType c));;
    ret (400, badStake "Invalid Content-Type: expected application/json")
  else
    match Body c with
    | Unreadable =>
        ret (400, badStake "Invalid request format: failed to read request body")
    | Malformed message =>
        ret (400, badStake ("Invalid request format: " +:+ message))
    | Parsed tempReq =>
        if StakeAmount tempReq <? 0
        then ret (400, badStake "stake_amount must be greater than 0")
        else
          let req :=
            {| request.StakeRequest.RequesterCoinID := RequesterCoinID tempReq;
               request.StakeRequest.AccepterCoinID := AccepterCoinID tempReq;
               request.StakeRequest.RequesterAddress := RequesterAddress tempReq;
               request.StakeRequest.AccepterAddress := AccepterAddress tempReq;
               request.StakeRequest.StakeAmount := StakeAmount tempReq mod 2 ^ 64 |} in
          match validateStakeRequest req with
          | Some err => ret (400, badStake err)
          | None =>
              '(resp, err) ← embed Service (service.StakeGame now gameService req);
              match err with
              | Some _ => ret (500, resp)
              | None => ret (200, resp)
              end
          end
    end.

Definition handlePayWinner (gameService : service.GameService)
    (c : Request (binding request.PayWinnerRequest.t)) : M event (Z * PayWinnerResponse.t) :=
  if negb (isJSON (ContentType c))
  then
    emit (LogInvalidContentType (Method c) (Path c) (ContentType c));;
    ret (400, badPayWinner "Invalid Content-Type: expected application/json")
  else
    match Body c with
    | BindError message =>
        ret (400, badPayWinner ("Invalid request format: " +:+ message))
    | Bound req =>
        match validatePayWinnerRequest req with
        | Some err => ret (400, badPayWinner ("Validation failed: " +:+ err))
        | None =>
            '(resp, err) ← embed Service (service.PayWinner now gameService req);
            match err with
            | Some _ => ret (500, resp)
            | None => ret (200, resp)
            end
        end
    end.

End WithClock.

End routes.

(** ** Inputs for the examples below *)

Module fixtures.

Import data.

(** A node that lists three coins on two pages. *)
Definition twoPages : Env :=
  {| suix_getCoins := λ _ _ cursor _,
       match cursor with
       | None =>
           Decoded (Some {| Data := [node.mkCoin "0xc1" "500"; node.mkCoin "0xc2" "300"];
                            NextCursor := Some "0xc2";
                            HasNextPage := true |})
       | Some _ =>
           Decoded (Some {| Data := [node.mkCoin "0xc3" "200"];
                            NextCursor := Some "0xc3";
                            HasNextPage := false |})
       end;
     unsafe_moveCall := λ _, Decoded (Some "tx");
     sui_executeTransactionBlock := λ _ _, Decoded (Some (node.succeeded "0xD"));
     DecodeString := Some;
     EncodeToString := id;
     Sign := λ _ _, "sig" |}.

(** Two coins of 2^63 each, and one coin without a balance. *)
Definition heavyWallet : list (gmap string value) :=
  [node.mkCoin "0xh1" "9223372036854775808"; node.bareCoin "0xh2";
   node.mkCoin "0xh3" "9223372036854775808"; node.mkCoin "0xh4" "7"].

(** A dry run whose storage rebate exceeds the two costs. *)
Definition rebating : suiclient.Queries :=
  {| suiclient.sui_dryRunTransactionBlock := λ _,
       Decoded (Some {| suiclient.ComputationCost := 1000;
                        suiclient.StorageCost := 2000;
                        suiclient.StorageRebate := 5000 |});
     suiclient.sui_getObject := λ _, Decoded (Some ∅) |}.

(** Two addresses of 64 hexadecimal digits. *)
Definition alice : string :=
  "0xaaaaaaaaaaaaaaaaaaaaaaaaaaaaaaaaaaaaaaaaaaaaaaaaaaaaaaaaaaaaaaaa".
Definition bob : string :=
  "0xbbbbbbbbbbbbbbbbbbbbbbbbbbbbbbbbbbbbbbbbbbbbbbbbbbbbbbbbbbbbbbbb".

Definition stake100 : request.StakeRequest.t :=
  {| request.StakeRequest.RequesterCoinID := "0xc1";
     request.StakeRequest.AccepterCoinID := "0xc2";
     request.StakeRequest.RequesterAddress := alice;
     request.StakeRequest.AccepterAddress := bob;
     request.StakeRequest.StakeAmount := 100 |}.

Definition payout100 : request.PayWinnerRequest.t :=
  {| request.PayWinnerRequest.RequesterAddress := alice;
     request.PayWinnerRequest.AccepterAddress := bob;
     request.PayWinnerRequest.RequesterScore := 3;
     request.PayWinnerRequest.AccepterScore := 1;
     request.PayWinnerRequest.StakeAmount := 100;
     request.PayWinnerRequest.Timestamp := 0;
     request.PayWinnerRequest.TransactionHash := "" |}.

Definition stakePost : routes.Request (routes.body routes.tempStakeRequest) :=
  {| routes.Method := "POST";
     routes.Path := "/api/v1/games/stake";
     routes.ContentType := "application/json";
     routes.Body :=
       routes.Parsed
         {| routes.RequesterCoinID := "0xc1";
            routes.AccepterCoinID := "0xc2";
            routes.RequesterAddress := alice;
            routes.AccepterAddress := bob;
            routes.StakeAmount := 100 |} |}.

Definition payWinnerPost : routes.Request (routes.binding request.PayWinnerRequest.t) :=
  {| routes.Method := "POST";
     routes.Path := "/api/v1/games/pay_winner";
     routes.ContentType := "application/json; charset=utf-8";
     routes.Body := routes.Bound payout100 |}.

(** A store that holds one stake and whose cursor closes cleanly. *)
Definition oneStake : models.Stake.t :=
  {| models.Stake.ID := "1";
     models.Stake.RequesterCoinID := "0xc1";
     models.Stake.AccepterCoinID := "0xc2";
     models.Stake.RequesterAddress := alice;
     models.Stake.AccepterAddress := bob;
     models.Stake.StakeAmount := 100;
     models.Stake.Status := "completed";
     models.Stake.Timestamp := 1700000000;
     models.Stake.TransactionHash := "0xD" |}.

Definition store : history.MongoFindInterface :=
  {| history.Find := λ _ _ _ _,
       inr {| history.AllStakes := inr [oneStake];
              history.AllGames := inl (ErrStorage "cannot decode");
              history.Close := None |} |}.

End fixtures.

(** * Properties *)

(** ** Decimal rendering and parsing *)

Module GoFacts.

Import Go.

Lemma digit_val_char (d : Z) : 0 <= d < 10 → digit_val (digit_char d) = Some d.
Proof.
  intros Hd.
  assert (d = 0 ∨ d = 1 ∨ d = 2 ∨ d = 3 ∨ d = 4 ∨ d = 5 ∨ d = 6 ∨ d = 7 ∨ d = 8 ∨ d = 9)
    as Hcases by lia.
  repeat (destruct Hcases as [-> | Hcases]; [reflexivity |]).
  subst d. reflexivity.
Qed.

Lemma digit_val_range (c : ascii) (d : Z) : digit_val c = Some d → 0 <= d < 10.
Proof.
  unfold digit_val. intros H.
  destruct (48 <=? Z.of_N (N_of_ascii c)) eqn:Hlo; simpl in H; [| discriminate].
  destruct (Z.of_N (N_of_ascii c) <=? 57) eqn:Hhi; simpl in H; [| discriminate].
  inversion H; subst. apply Z.leb_le in Hlo, Hhi. lia.
Qed.

Lemma digitsValue_mono (s : string) : ∀ n v, 0 <= n → digitsValue n s = Some v → n <= v.
Proof.
  induction s as [| c s IH]; intros n v Hn H; simpl in H.
  - inversion H. lia.
  - destruct (digit_val c) as [d |] eqn:Hd; [| discriminate].
    apply digit_val_range in Hd.
    apply IH in H; lia.
Qed.

(** Within range, the loop of [ParseUint] computes the plain value. *)
Lemma parseLoop_digitsValue (s : string) :
  ∀ n v, 0 <= n → digitsValue n s = Some v → v <= maxUint64 → parseLoop n s = Some v.
Proof.
  induction s as [| c s IH]; intros n v Hn H Hv; simpl in *; [done |].
  destruct (digit_val c) as [d |] eqn:Hd; [| discriminate].
  pose proof (digit_val_range _ _ Hd) as Hr.
  assert (0 <= n * 10 + d) as Hnd by lia.
  pose proof (digitsValue_mono _ _ _ Hnd H) as Hm.
  assert (maxUint64 = 18446744073709551615) as Hmax by reflexivity.
  assert (cutoff = 1844674407370955162) as Hcut by reflexivity.
  assert (2 ^ 64 = 18446744073709551616) as Hpow by reflexivity.
  rewrite Hpow.
  destruct (cutoff <=? n) eqn:Hc; [apply Z.leb_le in Hc; lia |].
  rewrite (Z.mod_small (n * 10 + d)) by lia.
  destruct (n * 10 + d <? n * 10) eqn:H1; [apply Z.ltb_lt in H1; lia |].
  destruct (maxUint64 <? n * 10 + d) eqn:H2; [apply Z.ltb_lt in H2; lia |].
  simpl. apply IH; [lia | done | done].
Qed.

Lemma fmtDigits_value (fuel : nat) :
  ∀ u buf, 0 <= u < 10 ^ Z.of_nat fuel →
    ∃ k, 0 <= k ∧ ∀ n, digitsValue n (fmtDigits fuel u buf) = digitsValue (n * 10 ^ k + u) buf.
Proof.
  induction fuel as [| fuel IH]; intros u buf Hu.
  - exists 0. split; [lia |]. intros n. simpl in *. f_equal; lia.
  - simpl fmtDigits. destruct (u <? 10) eqn:Hlt.
    + apply Z.ltb_lt in Hlt. exists 1. split; [lia |]. intros n.
      simpl digitsValue. rewrite digit_val_char by lia. f_equal; lia.
    + apply Z.ltb_ge in Hlt.
      rewrite Nat2Z.inj_succ, Z.pow_succ_r in Hu by lia.
      destruct (IH (u / 10) (String (digit_char (u mod 10)) buf)) as (k & Hk & Heq).
      { split; [apply Z.div_pos; lia | apply Z.div_lt_upper_bound; lia]. }
      exists (k + 1). split; [lia |]. intros n. rewrite Heq. simpl digitsValue.
      rewrite digit_val_char by (apply Z.mod_pos_bound; lia).
      f_equal. rewrite Z.pow_add_r by lia.
      pose proof (Z.div_mod u 10 ltac:(lia)). lia.
Qed.

Lemma fmtDigits_nonempty (fuel : nat) :
  ∀ u buf, (fuel ≠ O ∨ buf ≠ "") → fmtDigits fuel u buf ≠ "".
Proof.
  induction fuel as [| fuel IH]; intros u buf H; simpl.
  - destruct H; done.
  - destruct (u <? 10); [done |]. apply IH. right. done.
Qed.

(** The decimal rendering of a [uint64] parses back to it. *)
Lemma ParseUint_Sprintf_d (u : Z) :
  0 <= u <= maxUint64 → ParseUint (Sprintf_d u) = Some u.
Proof.
  intros Hu. unfold ParseUint.
  pose proof (fmtDigits_nonempty 20 u "" ltac:(left; done)) as Hne.
  fold (Sprintf_d u) in Hne.
  destruct (Sprintf_d u) as [| c s] eqn:Hs; [done |].
  rewrite <- Hs. apply parseLoop_digitsValue; [lia | | lia].
  unfold Sprintf_d.
  destruct (fmtDigits_value 20 u "") as (k & Hk & Heq).
  { assert (maxUint64 = 18446744073709551615) as Hmax by reflexivity.
    assert (10 ^ Z.of_nat 20 = 100000000000000000000) as Hpow by reflexivity.
    lia. }
  rewrite Heq. simpl. f_equal.
Qed.

End GoFacts.

(** ** Traces *)

Module TraceFacts.

Import Trace.

Section Laws.

Context {E A B : Type}.
Implicit Types (m : M E A) (k : A → M E B) (ev : E).

Lemma trace_bind_elem m k ev :
  ev ∈ trace (m ≫= k) ↔ ev ∈ trace m ∨ ∃ a, result m = Ok a ∧ ev ∈ trace (k a).
Proof.
  destruct m as [t [a | e | p]]; unfold mbind, trace_bind, bind, trace, result; simpl.
  - destruct (k a) as [t' r] eqn:Hk; simpl. rewrite elem_of_app. split.
    + intros [H | H]; [by left |]. right. exists a. by rewrite Hk.
    + intros [H | (a' & Ha & H)]; [by left |]. right.
      inversion Ha; subst a'. by rewrite Hk in H.
  - split; [by left |]. intros [H | (a & Ha & _)]; [done | discriminate].
  - split; [by left |]. intros [H | (a & Ha & _)]; [done | discriminate].
Qed.

Lemma result_bind m k :
  result (m ≫= k) =
    match result m with
    | Ok a => result (k a)
    | Err e => Err e
    | Panic p => Panic p
    end.
Proof.
  destruct m as [t [a | e | p]]; unfold mbind, trace_bind, bind, result; simpl; try done.
  by destruct (k a).
Qed.

Lemma trace_try_elem m (h : error → error) k ev :
  ev ∈ trace (try m h k) ↔ ev ∈ trace m ∨ ∃ a, result m = Ok a ∧ ev ∈ trace (k a).
Proof.
  destruct m as [t [a | e | p]]; unfold try, trace, result; simpl.
  - destruct (k a) as [t' r] eqn:Hk; simpl. rewrite elem_of_app. split.
    + intros [H | H]; [by left |]. right. exists a. by rewrite Hk.
    + intros [H | (a' & Ha & H)]; [by left |]. right.
      inversion Ha; subst a'. by rewrite Hk in H.
  - split; [by left |]. intros [H | (a & Ha & _)]; [done | discriminate].
  - split; [by left |]. intros [H | (a & Ha & _)]; [done | discriminate].
Qed.

Lemma result_try m (h : error → error) k :
  result (try m h k) =
    match result m with
    | Ok a => result (k a)
    | Err e => Err (h e)
    | Panic p => Panic p
    end.
Proof.
  destruct m as [t [a | e | p]]; unfold try, result; simpl; try done.
  by destruct (k a).
Qed.

Lemma trace_handle_elem m (h : error → M E B) k ev :
  ev ∈ trace (handle m h k) ↔
    ev ∈ trace m ∨ (∃ a, result m = Ok a ∧ ev ∈ trace (k a))
    ∨ (∃ e, result m = Err e ∧ ev ∈ trace (h e)).
Proof.
  destruct m as [t [a | e | p]]; unfold handle, trace, result; simpl.
  - destruct (k a) as [t' r] eqn:Hk; simpl. rewrite elem_of_app. split.
    + intros [H | H]; [by left |]. right. left. exists a. by rewrite Hk.
    + intros [H | [(a' & Ha & H) | (e & He & _)]]; [by left | | discriminate].
      right. inversion Ha; subst a'. by rewrite Hk in H.
  - destruct (h e) as [t' r] eqn:Hh; simpl. rewrite elem_of_app. split.
    + intros [H | H]; [by left |]. right. right. exists e. by rewrite Hh.
    + intros [H | [(a & Ha & _) | (e' & He & H)]]; [by left | discriminate |].
      right. inversion He; subst e'. by rewrite Hh in H.
  - split; [by left |].
    intros [H | [(a & Ha & _) | (e & He & _)]]; [done | discriminate | discriminate].
Qed.

Lemma result_handle m (h : error → M E B) k :
  result (handle m h k) =
    match result m with
    | Ok a => result (k a)
    | Err e => result (h e)
    | Panic p => Panic p
    end.
Proof.
  destruct m as [t [a | e | p]]; unfold handle, result; simpl; try done.
  - by destruct (k a).
  - by destruct (h e).
Qed.

End Laws.

Lemma trace_embed_elem {E F A} (f : E → F) (m : M E A) (ev : F) :
  ev ∈ trace (embed f m) ↔ ∃ e, ev = f e ∧ e ∈ trace m.
Proof. unfold embed, trace. simpl. apply list_elem_of_fmap. Qed.

Lemma result_embed {E F A} (f : E → F) (m : M E A) : result (embed f m) = result m.
Proof. done. Qed.

End TraceFacts.

(** ** The client *)

Module ClientFacts.

Import Trace TraceFacts data.

Section WithEnv.

Variable env : Env.
Implicit Types (s : SuiClient) (m : MoveCallRequest).

Lemma makeRPCCall_trace {A} (call : rpc_call) (rep : reply A) :
  trace (makeRPCCall call rep) = [Rpc call].
Proof. by destruct rep. Qed.

Lemma makeRPCCall_result {A} (call : rpc_call) (rep : reply A) :
  result (makeRPCCall call rep) =
    match rep with
    | Unreachable => Err ErrRequest
    | Garbled => Err ErrDecode
    | Remote code message => Err (ErrRPC code message)
    | Decoded r => Ok r
    end.
Proof. by destruct rep. Qed.

(** [GetCoins] asks for one page of ten coins, from the start. *)
Lemma GetCoins_trace s coinType :
  trace (GetCoins env s coinType) = [Rpc (CallGetCoins (address s) coinType None 10)].
Proof.
  unfold GetCoins.
  destruct (suix_getCoins env (address s) coinType None 10) as [| | c msg | [page |]]; done.
Qed.

Lemma GetCoins_result s coinType page :
  suix_getCoins env (address s) coinType None 10 = Decoded (Some page) →
  result (GetCoins env s coinType) = Ok (Data page).
Proof. intros H. unfold GetCoins. by rewrite H. Qed.

Lemma eventLoop_prints eventType events ev :
  ev ∈ trace (eventLoop eventType events) → ∃ l, ev = Print l.
Proof.
  induction events as [| e events IH]; simpl.
  - intros H. by apply elem_of_nil in H.
  - destruct (bool_decide_reflect (Type_ e = eventType)) as [He | He]; [| done].
    intros H. apply list_elem_of_singleton in H. eauto.
Qed.

Lemma eventLoop_result eventType events :
  result (eventLoop eventType events)
  = Ok (bool_decide (Exists (λ e, Type_ e = eventType) events)).
Proof.
  induction events as [| e events IH].
  - done.
  - cbn [eventLoop].
    destruct (bool_decide_reflect (Type_ e = eventType)) as [He | He].
    + rewrite bool_decide_eq_true_2 by (by apply Exists_cons_hd). reflexivity.
    + rewrite IH. f_equal. apply bool_decide_ext. rewrite Exists_cons. tauto.
Qed.

(** The whole run of [executeTransaction] once both requests were
    answered and the status check let the result through. *)
Lemma executeTransaction_run s m sfx txBytes signature txResult :
  unsafe_moveCall env m = Decoded (Some txBytes) →
  signTransaction env s txBytes = Ok signature →
  sui_executeTransactionBlock env txBytes [signature] = Decoded (Some txResult) →
  match Effects txResult !! "status" with
  | Some (VMap status) => notSuccess (index status "status") = false
  | _ => True
  end →
  let eventType :=
    PackageID (config s) +:+ "::" +:+ ModuleName (config s) +:+ "::" +:+ sfx in
  let scan := eventLoop eventType (Events txResult) in
  executeTransaction env s m sfx
  = ([Rpc (CallMoveCall m); Rpc (CallExecute txBytes [signature])]
       ++ trace scan
       ++ (if bool_decide (Exists (λ e, Type_ e = eventType) (Events txResult))
           then [] else [Print (EventNotFound eventType)]),
     Ok (Digest txResult)).
Proof.
  intros Hbuild Hsign Hexec Hstatus eventType scan.
  unfold executeTransaction. rewrite Hbuild. cbn. rewrite Hsign. cbn.
  rewrite Hexec. cbn.
  pose proof (eventLoop_result eventType (Events txResult)) as Hres.
  fold eventType. fold scan in Hres |- *.
  destruct scan as [t r]. unfold result in Hres. simpl in Hres. subst r.
  destruct (Effects txResult !! "status") as [[| | | | | status] |];
    try rewrite Hstatus; cbn;
    destruct (bool_decide (Exists (λ e, Type_ e = eventType) (Events txResult)));
    cbn; by rewrite ?app_nil_r.
Qed.

(** A status object that does not say "success" ends the run in an
    error; no digest leaves [executeTransaction]. *)
Lemma executeTransaction_failed s m sfx txBytes signature txResult status :
  unsafe_moveCall env m = Decoded (Some txBytes) →
  signTransaction env s txBytes = Ok signature →
  sui_executeTransactionBlock env txBytes [signature] = Decoded (Some txResult) →
  Effects txResult !! "status" = Some (VMap status) →
  notSuccess (index status "status") = true →
  result (executeTransaction env s m sfx) = Err (ErrTxFailed status).
Proof.
  intros Hbuild Hsign Hexec Hst Hns.
  unfold executeTransaction. rewrite Hbuild. cbn. rewrite Hsign. cbn.
  rewrite Hexec. cbn. rewrite Hst, Hns. done.
Qed.

(** Membership in a trace that is written out. *)
Ltac trace_cases H :=
  repeat match type of H with
    | _ ∈ _ :: _ => apply elem_of_cons in H as [H | H]; [congruence |]
    | _ ∈ _ ++ _ => apply elem_of_app in H as [H | H]
    | _ ∈ [] => by apply elem_of_nil in H
    end.

(** The first request of [executeTransaction] builds the move call
    it was given, and it builds no other. *)
Lemma executeTransaction_calls s m sfx :
  (∃ t, trace (executeTransaction env s m sfx) = Rpc (CallMoveCall m) :: t)
  ∧ ∀ m', Rpc (CallMoveCall m') ∈ trace (executeTransaction env s m sfx) → m' = m.
Proof.
  unfold executeTransaction.
  destruct (unsafe_moveCall env m) as [| | c msg | [txBytes |]];
    try (split; [by eexists | intros m' H; apply list_elem_of_singleton in H; congruence]).
  cbn.
  destruct (signTransaction env s txBytes) as [signature | e | p];
    try (split; [by eexists | intros m' H; apply list_elem_of_singleton in H; congruence]).
  cbn.
  destruct (sui_executeTransactionBlock env txBytes [signature]) as [| | c msg | [txResult |]];
    try (split; [by eexists | intros m' H; cbn in H; by trace_cases H]).
  cbn.
  set (eventType := PackageID (config s) +:+ _).
  pose proof (eventLoop_prints eventType (Events txResult)) as Hprints.
  pose proof (eventLoop_result eventType (Events txResult)) as Hres.
  destruct (eventLoop eventType (Events txResult)) as [t r].
  unfold result, trace in *. simpl in *. subst r.
  assert (∀ m', Rpc (CallMoveCall m') ∉ t) as Hno.
  { intros m' Hin. apply Hprints in Hin as [l Hl]. discriminate. }
  destruct (Effects txResult !! "status") as [[| | | | | status] |]; cbn;
    try destruct (notSuccess (index status "status")); cbn;
    destruct (bool_decide (Exists (λ e, Type_ e = eventType) (Events txResult))); cbn;
    (split; [by eexists |]); intros m' H;
    trace_cases H; by apply Hno in H.
Qed.

End WithEnv.

End ClientFacts.

(** ** Stake and PayWinner *)

Module Orchestration.

Import Trace TraceFacts data ClientFacts.

Lemma GetCoins_run env s coinType page :
  suix_getCoins env (address s) coinType None 10 = Decoded (Some page) →
  GetCoins env s coinType = ([Rpc (CallGetCoins (address s) coinType None 10)], Ok (Data page)).
Proof. intros H. unfold GetCoins. by rewrite H. Qed.

(** [ExternalStake] rejects an empty coin id and a zero amount before
    it sends anything. *)
Lemma ExternalStake_validates env s requesterCoinID accepterCoinID amount :
  requesterCoinID = "" ∨ accepterCoinID = "" ∨ amount = 0 →
  ∃ e, ExternalStake env s requesterCoinID accepterCoinID amount = ([], Err e).
Proof.
  intros H. unfold ExternalStake.
  destruct (bool_decide_reflect (requesterCoinID = "")) as [Hr | Hr]; [by eexists |].
  destruct (bool_decide_reflect (accepterCoinID = "")) as [Ha | Ha]; [by eexists |].
  destruct H as [H | [H | H]]; [done | done |]. subst amount. by eexists.
Qed.

(** C4. For every valid Stake input (both coin ids non-empty, amount
    greater than 0), every move call that [ExternalStake] builds
    targets "external_stake" with the arguments [poolId,
    requesterCoinId, accepterCoinId, amountString] in this order; the
    call is built as soon as the coin query yields a gas coin; and
    amountString, the decimal rendering of the amount, parses back to
    the amount. *)
Theorem ExternalStake_move_call env s requesterCoinID accepterCoinID amount :
  requesterCoinID ≠ "" → accepterCoinID ≠ "" → 0 < amount <= Go.maxUint64 →
  (∀ m, Rpc (CallMoveCall m)
          ∈ trace (ExternalStake env s requesterCoinID accepterCoinID amount) →
     Function m = "external_stake"
     ∧ Arguments m = [VStr (PoolID (config s)); VStr requesterCoinID;
                      VStr accepterCoinID; VStr (Go.Sprintf_d amount)])
  ∧ (∀ page gasCoin,
       suix_getCoins env (address s) "0x2::sui::SUI" None 10 = Decoded (Some page) →
       selectGasCoin requesterCoinID accepterCoinID (Data page) = Ok gasCoin →
       ∃ t, trace (ExternalStake env s requesterCoinID accepterCoinID amount)
            = Rpc (CallGetCoins (address s) "0x2::sui::SUI" None 10)
                :: Rpc (CallMoveCall
                          (stakeMoveCall s requesterCoinID accepterCoinID amount gasCoin))
                :: t)
  ∧ Go.ParseUint (Go.Sprintf_d amount) = Some amount.
Proof.
  intros Hr Ha Hamount. unfold ExternalStake.
  rewrite (bool_decide_eq_false_2 _ Hr), (bool_decide_eq_false_2 _ Ha).
  destruct (Z.eqb_spec amount 0) as [-> | _]; [lia |]. cbn [orb].
  split; [| split].
  - intros m Hin.
    apply trace_try_elem in Hin as [Hin | (coins & _ & Hin)].
    { rewrite GetCoins_trace in Hin. apply list_elem_of_singleton in Hin. discriminate. }
    apply trace_bind_elem in Hin as [Hin | (gasCoin & _ & Hin)].
    { by apply elem_of_nil in Hin. }
    apply executeTransaction_calls in Hin. by subst m.
  - intros page gasCoin Hpage Hgas.
    rewrite (GetCoins_run _ _ _ _ Hpage). cbn. rewrite Hgas. cbn.
    destruct (executeTransaction_calls env s
                (stakeMoveCall s requesterCoinID accepterCoinID amount gasCoin)
                "ExternalGameStaked") as [[t Ht] _].
    destruct (executeTransaction env s _ _) as [t' r]. unfold trace in Ht.
    simpl in Ht. subst t'. by eexists.
  - apply GoFacts.ParseUint_Sprintf_d. lia.
Qed.

Lemma ExternalStake_move_call_witness :
  ("0xc1" ≠ "" ∧ "0xc2" ≠ "" ∧ 0 < 100 <= Go.maxUint64)
  ∧ Go.ParseUint (Go.Sprintf_d 100) = Some 100
  ∧ ∃ t, trace (ExternalStake (node.serving node.wallet3 "tx" (node.succeeded "0xD"))
                  node.client "0xc1" "0xc2" 100)
         = Rpc (CallGetCoins "0xa11ce" "0x2::sui::SUI" None 10)
             :: Rpc (CallMoveCall (stakeMoveCall node.client "0xc1" "0xc2" 100 "0xc3"))
             :: t.
Proof.
  assert ("0xc1" ≠ "" ∧ "0xc2" ≠ "" ∧ 0 < 100 <= Go.maxUint64) as H.
  { repeat split; (discriminate || reflexivity). }
  split; [exact H |].
  destruct H as (Hr & Ha & Hamount).
  destruct (ExternalStake_move_call
              (node.serving node.wallet3 "tx" (node.succeeded "0xD"))
              node.client "0xc1" "0xc2" 100 Hr Ha Hamount) as (_ & Hcall & Hparse).
  split; [exact Hparse |].
  apply (Hcall (node.page node.wallet3 None 10)); vm_compute; reflexivity.
Defined.

(** C9. When both requests of an execution were answered and the
    effects status is absent or says "success", [executeTransaction]
    returns the digest whether or not the expected event is among the
    events; when it is not, the warning is printed. *)
Theorem executeTransaction_event_optional env s m sfx txBytes signature txResult :
  unsafe_moveCall env m = Decoded (Some txBytes) →
  signTransaction env s txBytes = Ok signature →
  sui_executeTransactionBlock env txBytes [signature] = Decoded (Some txResult) →
  (Effects txResult !! "status" = None
   ∨ ∃ status, Effects txResult !! "status" = Some (VMap status)
               ∧ status !! "status" = Some (VStr "success")) →
  result (executeTransaction env s m sfx) = Ok (Digest txResult)
  ∧ (Forall (λ ev, Type_ ev ≠ PackageID (config s) +:+ "::" +:+ ModuleName (config s)
                                +:+ "::" +:+ sfx) (Events txResult) →
     Print (EventNotFound (PackageID (config s) +:+ "::" +:+ ModuleName (config s)
                             +:+ "::" +:+ sfx))
       ∈ trace (executeTransaction env s m sfx)).
Proof.
  intros Hbuild Hsign Hexec Hstatus.
  rewrite (executeTransaction_run env s m sfx txBytes signature txResult Hbuild Hsign Hexec).
  - split; [done |]. intros Hnone. unfold trace. simpl.
    rewrite bool_decide_eq_false_2.
    + apply elem_of_cons. right. apply elem_of_cons. right.
      apply elem_of_app. right. apply list_elem_of_singleton. done.
    + intros Hex. apply Exists_exists in Hex as (ev & Hin & Hty).
      rewrite Forall_forall in Hnone. by apply (Hnone ev).
  - destruct Hstatus as [-> | (status & -> & Hs)]; [done |].
    unfold index. rewrite Hs. done.
Qed.

Lemma executeTransaction_event_optional_witness :
  result (executeTransaction (node.serving node.wallet3 "tx" (node.succeeded "0xD"))
            node.client (stakeMoveCall node.client "0xc1" "0xc2" 100 "0xc3")
            "ExternalGameStaked")
  = Ok "0xD"
  ∧ Print (EventNotFound "0xpkg::game::ExternalGameStaked")
      ∈ trace (executeTransaction (node.serving node.wallet3 "tx" (node.succeeded "0xD"))
                 node.client (stakeMoveCall node.client "0xc1" "0xc2" 100 "0xc3")
                 "ExternalGameStaked").
Proof.
  destruct (executeTransaction_event_optional
              (node.serving node.wallet3 "tx" (node.succeeded "0xD"))
              node.client (stakeMoveCall node.client "0xc1" "0xc2" 100 "0xc3")
              "ExternalGameStaked" "tx" node.envelope (node.succeeded "0xD")
              eq_refl eq_refl eq_refl) as [Hres Hwarn].
  { right. exists {[ "status" := VStr "success" ]}. split; vm_compute; reflexivity. }
  split; [exact Hres |]. apply Hwarn. apply Forall_nil. exact I.
Defined.

Lemma winEventLoop_result eventType events :
  result (winEventLoop eventType events) = Ok tt.
Proof.
  induction events as [| ev events IH]; [done |].
  cbn [winEventLoop]. rewrite result_bind.
  by destruct (bool_decide (Type_ ev = eventType) && decodesAsWinEvent (ParsedJson ev)).
Qed.

(** [ExternalPayWinner] returns the digest of whatever result the
    node decoded: the effects are never looked at. *)
Lemma ExternalPayWinner_digest env s requesterAddress accepterAddress
    requesterScore accepterScore stakeAmount page coin0 rest gas txBytes signature txResult :
  suix_getCoins env (address s) "0x2::sui::SUI" None 10 = Decoded (Some page) →
  Data page = coin0 :: rest →
  assertString coin0 "coinObjectId" = Ok gas →
  unsafe_moveCall env
    (payWinnerMoveCall s requesterAddress accepterAddress
       requesterScore accepterScore stakeAmount gas) = Decoded (Some txBytes) →
  signTransaction env s txBytes = Ok signature →
  sui_executeTransactionBlock env txBytes [signature] = Decoded (Some txResult) →
  result (ExternalPayWinner env s requesterAddress accepterAddress
            requesterScore accepterScore stakeAmount) = Ok (Digest txResult).
Proof.
  intros Hpage Hdata Hgas Hbuild Hsign Hexec. unfold ExternalPayWinner.
  rewrite result_try, (GetCoins_result _ _ _ _ Hpage), Hdata.
  rewrite result_bind. unfold lift at 1. unfold result at 1. cbn [snd]. rewrite Hgas.
  rewrite result_try, makeRPCCall_result, Hbuild.
  rewrite result_try. unfold lift at 1. unfold result at 1. cbn [snd]. rewrite Hsign.
  rewrite result_try, makeRPCCall_result, Hexec.
  rewrite result_bind, winEventLoop_result. done.
Qed.

(** [ExternalPayWinner] opens with the coin query, whatever its
    arguments are. *)
Lemma ExternalPayWinner_first_call env s requesterAddress accepterAddress
    requesterScore accepterScore stakeAmount :
  ∃ t, trace (ExternalPayWinner env s requesterAddress accepterAddress
                requesterScore accepterScore stakeAmount)
       = Rpc (CallGetCoins (address s) "0x2::sui::SUI" None 10) :: t.
Proof.
  unfold ExternalPayWinner.
  pose proof (GetCoins_trace env s "0x2::sui::SUI") as Ht.
  destruct (GetCoins env s "0x2::sui::SUI") as [t [coins | e | p]];
    unfold trace in Ht; simpl in Ht; subst t; unfold try; try by eexists.
  match goal with |- context [let '(t', r) := ?k in _] => destruct k as [t' r] end.
  by eexists.
Qed.

(** C1. At a node that reports the effects status "failure" with the
    digest 0xD, [ExternalPayWinner] returns the digest 0xD, where
    [ExternalStake] ends in the error that carries the status. *)
Theorem ExternalPayWinner_returns_digest_of_failed_transaction :
  result (ExternalPayWinner (node.serving node.wallet3 "tx" (node.failed "0xD"))
            node.client "0xa" "0xb" 3 1 100)
  = Ok "0xD"
  ∧ result (ExternalStake (node.serving node.wallet3 "tx" (node.failed "0xD"))
              node.client "0xc1" "0xc2" 100)
    = Err (ErrTxFailed {[ "status" := VStr "failure" ]}).
Proof. split; vm_compute; reflexivity. Qed.

(** C2. Called with two empty addresses and a stake of 0 at a node
    that answers, [ExternalPayWinner] queries the coins, builds and
    submits the transaction and returns its digest. *)
Theorem ExternalPayWinner_does_not_validate :
  (Rpc <$> [CallGetCoins "0xa11ce" "0x2::sui::SUI" None 10;
            CallMoveCall (payWinnerMoveCall node.client "" "" 0 0 0 "0xc1");
            CallExecute "tx" [node.envelope]],
   Ok "0xD")
  = ExternalPayWinner (node.serving node.wallet3 "tx" (node.succeeded "0xD"))
      node.client "" "" 0 0 0.
Proof. vm_compute. reflexivity. Qed.

(** [GetCoins] at a node that serves a wallet yields the first ten
    coins of the wallet and nothing else. *)
Lemma GetCoins_first_page wallet txBytes txResult s coinType :
  result (GetCoins (node.serving wallet txBytes txResult) s coinType) = Ok (take 10 wallet).
Proof. done. Qed.

(** C3. In a wallet of twelve coins whose two last coins hold 500 and
    whose ten first coins hold 1, [GetSufficientCoins] finds no coin
    of at least 100, although the same scan over the wallet, and over
    what [GetAllCoins] fetches, finds the two coins. *)
Theorem GetSufficientCoins_reads_first_page_only :
  result (GetSufficientCoins (node.serving node.wallet12 "tx" (node.succeeded "0xD"))
            node.client 100 2)
  = Err (ErrInsufficient 2 100 0)
  ∧ selectSufficientCoins 100 2 node.wallet12 = Ok ["0xb1"; "0xb2"]
  ∧ match result (GetAllCoins (node.serving node.wallet12 "tx" (node.succeeded "0xD"))
                    3 node.client "0x2::sui::SUI") with
    | Ok (Some allCoins) => selectSufficientCoins 100 2 allCoins
    | _ => Ok []
    end = Ok ["0xb1"; "0xb2"].
Proof. repeat split; vm_compute; reflexivity. Qed.

End Orchestration.

(** ** Coin selection *)

Module Selection.

Import data.

Lemma elem_of_pair (id a b : string) : id ∈ ({[a; b]} : gset string) ↔ id = a ∨ id = b.
Proof. by rewrite elem_of_union, !elem_of_singleton. Qed.

Lemma not_excluded (id requesterCoinID accepterCoinID : string) :
  bool_decide (id ≠ requesterCoinID) && bool_decide (id ≠ accepterCoinID)
  = bool_decide (id ∉ ({[requesterCoinID; accepterCoinID]} : gset string)).
Proof.
  destruct (bool_decide_reflect (id ∉ ({[requesterCoinID; accepterCoinID]} : gset string)))
    as [H | H].
  - rewrite elem_of_pair in H.
    rewrite !bool_decide_eq_true_2; [done | tauto | tauto].
  - rewrite elem_of_pair in H. apply andb_false_iff.
    destruct (decide (id = requesterCoinID)) as [-> | Hr].
    + left. by apply bool_decide_eq_false_2; intros ?.
    + right. apply bool_decide_eq_false_2. intros Ha. apply H. tauto.
Qed.

Lemma gasCoinLoop_find requesterCoinID accepterCoinID coins :
  Forall spec.identified coins →
  gasCoinLoop requesterCoinID accepterCoinID coins
  = Ok (default ""
          (List.find (λ id, bool_decide (id ∉ ({[requesterCoinID; accepterCoinID]} : gset string)))
             (spec.coinId <$> coins))).
Proof.
  induction 1 as [| c coins (id & Hid & _) _ IH]; [done |].
  cbn [gasCoinLoop fmap list_fmap List.find].
  unfold assertString, spec.coinId, index. rewrite Hid. cbn.
  rewrite not_excluded.
  destruct (bool_decide (id ∉ ({[requesterCoinID; accepterCoinID]} : gset string))); [done |].
  exact IH.
Qed.

Lemma find_identified (f : string → bool) coins id :
  Forall spec.identified coins → List.find f (spec.coinId <$> coins) = Some id → id ≠ "".
Proof.
  induction 1 as [| c coins (id' & Hid & Hne) _ IH]; [done |].
  cbn [fmap list_fmap List.find].
  replace (spec.coinId c) with id' by (unfold spec.coinId, index; by rewrite Hid).
  destruct (f id'); [| exact IH]. by intros [= <-].
Qed.

Lemma find_none_excluded (excluding : gset string) (ids : list string) :
  List.find (λ id, bool_decide (id ∉ excluding)) ids = None
  ↔ Forall (λ id, id ∈ excluding) ids.
Proof.
  induction ids as [| id ids IH]; cbn [List.find].
  - split; [by constructor | done].
  - destruct (bool_decide_reflect (id ∉ excluding)) as [H | H].
    + split; [done |]. intros Hall. by inversion Hall.
    + rewrite IH. split.
      * intros Hall. constructor; [| done].
        by destruct (decide (id ∈ excluding)).
      * intros Hall. by inversion Hall.
Qed.

(** C7 as stated, at the coin list ["", "0xc3"] with the exclusion
    set {"0xc1", "0xc2"}: the first coin that is not excluded is the
    coin "", not every coin is excluded, and the selection fails. *)
Lemma selectGasCoin_fails_on_empty_id :
  selectGasCoin "0xc1" "0xc2" (node.bareCoin <$> [""; "0xc3"]) = Err ErrNoGasCoin
  ∧ spec.selectGasCoin {["0xc1"; "0xc2"]} [""; "0xc3"] = Ok ""
  ∧ ¬ Forall (λ id, id ∈ ({["0xc1"; "0xc2"]} : gset string)) [""; "0xc3"].
Proof.
  split; [by vm_compute |]. split; [by vm_compute |].
  intros H. inversion H as [| ? ? Hin _]; subst.
  apply elem_of_pair in Hin as [Hin | Hin]; discriminate.
Qed.

(** C7, amended. For every fetched coin list whose coins carry
    non-empty ids and for the exclusion set of the two payment coins,
    the gas-coin selection returns the first coin in list order whose
    id is not excluded, and fails with "no gas coin available" exactly
    when every coin of the list is excluded. *)
Theorem selectGasCoin_first_not_excluded requesterCoinID accepterCoinID coins :
  Forall spec.identified coins →
  selectGasCoin requesterCoinID accepterCoinID coins
  = spec.selectGasCoin {[requesterCoinID; accepterCoinID]} (spec.coinId <$> coins)
  ∧ (selectGasCoin requesterCoinID accepterCoinID coins = Err ErrNoGasCoin
     ↔ Forall (λ id, id ∈ ({[requesterCoinID; accepterCoinID]} : gset string))
         (spec.coinId <$> coins)).
Proof.
  intros Hids.
  assert (selectGasCoin requesterCoinID accepterCoinID coins
          = spec.selectGasCoin {[requesterCoinID; accepterCoinID]} (spec.coinId <$> coins))
    as Heq.
  { unfold selectGasCoin, spec.selectGasCoin.
    rewrite (gasCoinLoop_find _ _ _ Hids). cbn.
    destruct (List.find _ (spec.coinId <$> coins)) as [id |] eqn:Hfind; cbn; [| done].
    apply find_identified in Hfind; [| done].
    by rewrite bool_decide_eq_false_2. }
  split; [exact Heq |].
  rewrite Heq, <- find_none_excluded. unfold spec.selectGasCoin.
  destruct (List.find _ (spec.coinId <$> coins)); split; done.
Qed.

Lemma selectGasCoin_first_not_excluded_witness :
  Forall spec.identified (node.bareCoin <$> ["0xc1"; "0xc2"])
  ∧ selectGasCoin "0xc1" "0xc2" (node.bareCoin <$> ["0xc1"; "0xc2"]) = Err ErrNoGasCoin.
Proof.
  assert (Forall spec.identified (node.bareCoin <$> ["0xc1"; "0xc2"])) as H.
  { repeat constructor; eexists; (split; [vm_compute; reflexivity | discriminate]). }
  split; [exact H |].
  destruct (selectGasCoin_first_not_excluded "0xc1" "0xc2" _ H) as [Heq _].
  rewrite Heq. vm_compute. reflexivity.
Defined.

Lemma typed_assertions c :
  spec.typed c →
  ∃ b id, assertString c "balance" = Ok b ∧ assertString c "coinObjectId" = Ok id
          ∧ spec.balanceOf c = Go.ParseUint b ∧ spec.coinId c = id.
Proof.
  intros [(b & Hb) (id & Hid)]. exists b, id.
  unfold assertString, spec.balanceOf, spec.coinId, index. by rewrite Hb, Hid.
Qed.

(** The loop of [GetSufficientCoins] from [suitableCoins], fewer than
    [count]: the qualifying coins are appended in list order until
    there are [count] of them. *)
Lemma sufficientLoop_collects requiredAmount count coins :
  Forall spec.typed coins →
  ∀ suitableCoins,
    Z.of_nat (length suitableCoins) < count →
    sufficientLoop requiredAmount count coins suitableCoins
    = Ok (take (Z.to_nat count)
            (suitableCoins
               ++ (spec.coinId <$> List.filter (spec.qualifies requiredAmount) coins))).
Proof.
  induction 1 as [| c coins Hc _ IH]; intros suitableCoins Hlen.
  - cbn. rewrite app_nil_r, take_ge by lia. done.
  - destruct (typed_assertions c Hc) as (b & id & Hb & Hid & Hbal & Hcid).
    cbn [sufficientLoop List.filter]. rewrite Hb. cbn.
    unfold spec.qualifies. rewrite Hbal.
    destruct (Go.ParseUint b) as [balance |]; [| by apply IH].
    destruct (requiredAmount <=? balance); [| by apply IH].
    rewrite Hid. cbn. rewrite Hcid.
    assert (length (suitableCoins ++ [id]) = S (length suitableCoins)) as Hlen'.
    { rewrite length_app. cbn. lia. }
    assert (∀ rest, suitableCoins ++ id :: rest = (suitableCoins ++ [id]) ++ rest) as Hmid.
    { intros rest. by rewrite <- app_assoc. }
    set (rest := spec.coinId <$> List.filter _ coins). rewrite (Hmid rest).
    destruct (Z.leb_spec count (Z.of_nat (length (suitableCoins ++ [id])))) as [Hfull | Hmore].
    + f_equal. symmetry. apply take_app_length'. lia.
    + by apply IH.
Qed.

(** C8 as stated, at a requested count of 0: one coin is collected
    where none was asked for. *)
Lemma selectSufficientCoins_count_zero :
  selectSufficientCoins 1 0 node.wallet3 = Ok ["0xc1"]
  ∧ spec.selectPaymentCoins 1 0 node.wallet3 = Ok [].
Proof. split; vm_compute; reflexivity. Qed.

(** C8, amended. For every fetched coin list whose coins carry a
    string id and a string balance, every required amount and every
    requested count of at least 1, the payment-coin selection scans
    the list in order, collects exactly the coins whose own balance is
    at least the required amount, stops as soon as count coins are
    collected, and fails with the insufficient-coins error, which
    reports the needed and the found count, when fewer than count
    coins of the list qualify. *)
Theorem selectSufficientCoins_collects requiredAmount count coins :
  1 <= count →
  Forall spec.typed coins →
  selectSufficientCoins requiredAmount count coins
  = spec.selectPaymentCoins requiredAmount count coins.
Proof.
  intros Hcount Htyped. unfold selectSufficientCoins, spec.selectPaymentCoins.
  rewrite (sufficientLoop_collects _ _ _ Htyped []) by (cbn; lia). cbn.
  set (found := spec.coinId <$> List.filter (spec.qualifies requiredAmount) coins).
  rewrite length_take.
  destruct (Z.ltb_spec (Z.of_nat (length found)) count) as [Hfew | Henough].
  - rewrite Nat.min_r by lia.
    destruct (Z.ltb_spec (Z.of_nat (length found)) count); [done | lia].
  - rewrite Nat.min_l by lia.
    destruct (Z.ltb_spec (Z.of_nat (Z.to_nat count)) count); [lia | done].
Qed.

Lemma selectSufficientCoins_collects_witness :
  (1 <= 2 ∧ Forall spec.typed node.wallet3)
  ∧ selectSufficientCoins 250 2 node.wallet3 = Ok ["0xc1"; "0xc2"]
  ∧ selectSufficientCoins 400 2 node.wallet3 = Err (ErrInsufficient 2 400 1).
Proof.
  assert (1 <= 2 ∧ Forall spec.typed node.wallet3) as H.
  { split; [lia |].
    repeat constructor; eexists; vm_compute; reflexivity. }
  split; [exact H |]. destruct H as [Hcount Htyped].
  rewrite !(selectSufficientCoins_collects _ 2 node.wallet3 Hcount Htyped).
  split; vm_compute; reflexivity.
Defined.

(** A balance that is a string but no decimal [uint64] is passed
    over: the selection is the selection over the coins whose balance
    parses. *)
Lemma sufficientLoop_skips_unparsable requiredAmount count coins :
  Forall (λ c, ∃ b, c !! "balance" = Some (VStr b)) coins →
  ∀ suitableCoins,
    sufficientLoop requiredAmount count coins suitableCoins
    = sufficientLoop requiredAmount count (List.filter spec.wellFormed coins) suitableCoins.
Proof.
  induction 1 as [| c coins (b & Hb) _ IH]; intros suitableCoins; [done |].
  cbn [List.filter]. unfold spec.wellFormed, spec.balanceOf, index. rewrite Hb. cbn.
  destruct (Go.ParseUint b) as [balance |] eqn:Hparse.
  - cbn [sufficientLoop]. unfold assertString, index. rewrite Hb. cbn. rewrite Hparse.
    destruct (requiredAmount <=? balance); [| by apply IH].
    destruct (default VNil (c !! "coinObjectId")); cbn; try done.
    destruct (count <=? _); [done | by apply IH].
  - cbn [sufficientLoop]. unfold assertString, index. rewrite Hb. cbn. rewrite Hparse.
    by apply IH.
Qed.

Lemma selectSufficientCoins_skips_unparsable requiredAmount count coins :
  Forall (λ c, ∃ b, c !! "balance" = Some (VStr b)) coins →
  selectSufficientCoins requiredAmount count coins
  = selectSufficientCoins requiredAmount count (List.filter spec.wellFormed coins).
Proof.
  intros H. unfold selectSufficientCoins. by rewrite (sufficientLoop_skips_unparsable _ _ _ H).
Qed.

(** C10. On the coin list [0xa without a balance, 0xb with balance 5]
    the scan of [GetSufficientCoins] panics at the first coin, where
    the selection over the well-formed coins alone returns 0xb. *)
Theorem selectSufficientCoins_panics_on_missing_balance :
  selectSufficientCoins 1 1 [node.bareCoin "0xa"; node.mkCoin "0xb" "5"]
  = Panic (PanicTypeAssertion "balance")
  ∧ selectSufficientCoins 1 1
      (List.filter spec.wellFormed [node.bareCoin "0xa"; node.mkCoin "0xb" "5"])
    = Ok ["0xb"].
Proof. split; vm_compute; reflexivity. Qed.

End Selection.

(** ** The game service *)

Module ServiceFacts.

Import Trace TraceFacts service response.

Section WithClock.

Variable now : Z.
Implicit Types (s : GameService).

(** The service turns away a pay-winner request with an empty
    address or a zero stake before it calls the client. *)
Lemma PayWinner_validates s requesterAddress accepterAddress
    requesterScore accepterScore stakeAmount timestamp transactionHash :
  requesterAddress = "" ∨ accepterAddress = "" ∨ stakeAmount = 0 →
  ∃ resp,
    PayWinner now s
      (request.PayWinnerRequest.Build_t requesterAddress accepterAddress
         requesterScore accepterScore stakeAmount timestamp transactionHash)
    = ([], Ok (resp, Some ErrInvalidPayWinner))
    ∧ PayWinnerResponse.Success resp = false.
Proof.
  intros H. unfold PayWinner.
  destruct (bool_decide_reflect (requesterAddress = "")) as [Hr | Hr]; [by eexists |].
  destruct (bool_decide_reflect (accepterAddress = "")) as [Ha | Ha]; [by eexists |].
  destruct H as [H | [H | H]]; [done | done |]. subst stakeAmount. by eexists.
Qed.

Ltac trace_cases H :=
  unfold trace in H; cbn in H;
  repeat match type of H with
    | _ ∈ _ :: _ => apply elem_of_cons in H as [H | H]; [try discriminate |]
    | _ ∈ _ ++ _ => apply elem_of_app in H as [H | H]
    | _ ∈ [] => by apply elem_of_nil in H
    | _ ∈ (Chain <$> _) => apply list_elem_of_fmap in H as (? & ? & _); discriminate
    end.

Ltac trace_in :=
  repeat first
    [ apply list_elem_of_here
    | apply list_elem_of_further
    | apply elem_of_app; right ].

(** C5. For every stake or pay-winner request that passes the
    validation and whose chain operation returns a digest, the
    service returns the success response with that digest and no
    error, whatever the insert returns; when the insert fails, the
    failure is logged. *)
Theorem persistence_failure_keeps_success s :
  (∀ requesterCoinID accepterCoinID requesterAddress accepterAddress stakeAmount txDigest,
     requesterCoinID ≠ "" → accepterCoinID ≠ "" →
     requesterAddress ≠ "" → accepterAddress ≠ "" → stakeAmount ≠ 0 →
     result (interfaces.ExternalStake (suiClient s)
               requesterCoinID accepterCoinID stakeAmount) = Ok txDigest →
     let run :=
       StakeGame now s
         (request.StakeRequest.Build_t requesterCoinID accepterCoinID
            requesterAddress accepterAddress stakeAmount) in
     (∃ resp, result run = Ok (resp, None)
              ∧ StakeResponse.Success resp = true
              ∧ StakeResponse.TransactionDigest resp = txDigest)
     ∧ ∃ doc,
         Insert "jollfi_games" "stakes" doc ∈ trace run
         ∧ ∀ err,
             interfaces.InsertOne (mongoClient s) "jollfi_games" "stakes" doc = Some err →
             Log (LogSaveFailed err) ∈ trace run)
  ∧ (∀ requesterAddress accepterAddress requesterScore accepterScore stakeAmount
       timestamp transactionHash txDigest,
       requesterAddress ≠ "" → accepterAddress ≠ "" → stakeAmount ≠ 0 →
       result (interfaces.ExternalPayWinner (suiClient s) requesterAddress accepterAddress
                 requesterScore accepterScore stakeAmount) = Ok txDigest →
       let run :=
         PayWinner now s
           (request.PayWinnerRequest.Build_t requesterAddress accepterAddress
              requesterScore accepterScore stakeAmount timestamp transactionHash) in
       (∃ resp, result run = Ok (resp, None)
                ∧ PayWinnerResponse.Success resp = true
                ∧ PayWinnerResponse.TransactionDigest resp = txDigest)
       ∧ ∃ doc,
           Insert "jollfi_games" "pay_winners" doc ∈ trace run
           ∧ ∀ err,
               interfaces.InsertOne (mongoClient s) "jollfi_games" "pay_winners" doc
               = Some err →
               Log (LogSaveFailed err) ∈ trace run).
Proof.
  split.
  - intros rc ac ra aa amount d Hrc Hac Hra Haa Hamount Hchain run. subst run.
    unfold StakeGame.
    rewrite (bool_decide_eq_false_2 _ Hrc), (bool_decide_eq_false_2 _ Hac).
    rewrite (bool_decide_eq_false_2 _ Hra), (bool_decide_eq_false_2 _ Haa).
    destruct (Z.eqb_spec amount 0) as [| _]; [done |]. cbn [orb].
    destruct (interfaces.ExternalStake (suiClient s) rc ac amount) as [t r].
    unfold result in Hchain. simpl in Hchain. subst r. cbn.
    destruct (interfaces.InsertOne (mongoClient s) _ _ _) as [err0 |] eqn:Hins; cbn;
      (split; [by eexists |]); eexists; (split; [unfold trace; cbn; trace_in |]);
      intros err Herr; rewrite Hins in Herr; [| discriminate].
    injection Herr as ->. unfold trace. cbn. trace_in.
  - intros ra aa rs as_ amount ts th d Hra Haa Hamount Hchain run. subst run.
    unfold PayWinner.
    rewrite (bool_decide_eq_false_2 _ Hra), (bool_decide_eq_false_2 _ Haa).
    destruct (Z.eqb_spec amount 0) as [| _]; [done |]. cbn [orb].
    destruct (interfaces.ExternalPayWinner (suiClient s) ra aa rs as_ amount) as [t r].
    unfold result in Hchain. simpl in Hchain. subst r. cbn.
    destruct (interfaces.InsertOne (mongoClient s) _ _ _) as [err0 |] eqn:Hins; cbn;
      (split; [by eexists |]); eexists; (split; [unfold trace; cbn; trace_in |]);
      intros err Herr; rewrite Hins in Herr; [| discriminate].
    injection Herr as ->. unfold trace. cbn. trace_in.
Qed.


End WithClock.

Lemma persistence_failure_keeps_success_witness :
  (∃ resp,
     result (StakeGame 1700000000
               (node.gameService (node.serving node.wallet3 "tx" (node.succeeded "0xD"))
                  node.storageDown)
               node.stakeRequest) = Ok (resp, None)
     ∧ StakeResponse.Success resp = true
     ∧ StakeResponse.TransactionDigest resp = "0xD")
  ∧ (∃ resp,
       result (PayWinner 1700000000
                 (node.gameService (node.serving node.wallet3 "tx" (node.succeeded "0xD"))
                    node.storageDown)
                 node.payWinnerRequest) = Ok (resp, None)
       ∧ PayWinnerResponse.Success resp = true
       ∧ PayWinnerResponse.TransactionDigest resp = "0xD").
Proof.
  destruct (persistence_failure_keeps_success 1700000000
              (node.gameService (node.serving node.wallet3 "tx" (node.succeeded "0xD"))
                 node.storageDown)) as [Hstake Hpay].
  split.
  - refine (proj1 (Hstake "0xc1" "0xc2" "0xa" "0xb" 100 "0xD" _ _ _ _ _ _));
      (discriminate || (vm_compute; reflexivity)).
  - refine (proj1 (Hpay "0xa" "0xb" 3 1 100 0 "" "0xD" _ _ _ _));
      (discriminate || (vm_compute; reflexivity)).
Defined.


End ServiceFacts.

(** ** More on Stake and PayWinner *)

Module StakeFacts.

Import Trace TraceFacts data ClientFacts.

Lemma GetCoins_result_inv env s coinType coins :
  result (GetCoins env s coinType) = Ok coins →
  ∃ page, suix_getCoins env (address s) coinType None 10 = Decoded (Some page)
          ∧ coins = Data page.
Proof.
  unfold GetCoins.
  destruct (suix_getCoins env (address s) coinType None 10) as [| | c msg | [page |]];
    cbn; intros H; try discriminate.
  injection H as <-. by exists page.
Qed.

Lemma gasCoinLoop_sound requesterCoinID accepterCoinID coins gasCoin :
  gasCoinLoop requesterCoinID accepterCoinID coins = Ok gasCoin →
  gasCoin ≠ "" →
  gasCoin ≠ requesterCoinID ∧ gasCoin ≠ accepterCoinID
  ∧ ∃ c, c ∈ coins ∧ c !! "coinObjectId" = Some (VStr gasCoin).
Proof.
  induction coins as [| c coins IH]; cbn [gasCoinLoop].
  - intros [= <-] Hne. done.
  - unfold assertString, index.
    destruct (c !! "coinObjectId") as [[| | | id | |] |] eqn:Hid; cbn; try discriminate.
    destruct (bool_decide_reflect (id ≠ requesterCoinID)) as [Hr | Hr]; cbn.
    + destruct (bool_decide_reflect (id ≠ accepterCoinID)) as [Ha | Ha]; cbn.
      * intros [= <-] _. repeat split; try done. exists c. split; [apply list_elem_of_here | done].
      * intros H Hne. destruct (IH H Hne) as (? & ? & c' & Hin & Hc').
        repeat split; try done. exists c'. split; [by apply list_elem_of_further | done].
    + intros H Hne. destruct (IH H Hne) as (? & ? & c' & Hin & Hc').
      repeat split; try done. exists c'. split; [by apply list_elem_of_further | done].
Qed.

Lemma selectGasCoin_sound requesterCoinID accepterCoinID coins gasCoin :
  selectGasCoin requesterCoinID accepterCoinID coins = Ok gasCoin →
  gasCoin ≠ "" ∧ gasCoin ≠ requesterCoinID ∧ gasCoin ≠ accepterCoinID
  ∧ ∃ c, c ∈ coins ∧ c !! "coinObjectId" = Some (VStr gasCoin).
Proof.
  unfold selectGasCoin.
  destruct (gasCoinLoop requesterCoinID accepterCoinID coins) as [g | e | p] eqn:Hloop;
    cbn; try discriminate.
  destruct (bool_decide_reflect (g = "")) as [Hg | Hg]; [discriminate |].
  intros [= <-]. split; [done |]. by apply gasCoinLoop_sound.
Qed.

(** X1. Whatever the node lists, the gas coin of a move call that
    [ExternalStake] builds is the id of a listed coin, is not empty and
    is neither of the two payment coins. *)
Theorem ExternalStake_gas_is_no_payment_coin env s requesterCoinID accepterCoinID amount m :
  Rpc (CallMoveCall m) ∈ trace (ExternalStake env s requesterCoinID accepterCoinID amount) →
  Gas m ≠ "" ∧ Gas m ≠ requesterCoinID ∧ Gas m ≠ accepterCoinID
  ∧ ∃ page c,
      suix_getCoins env (address s) "0x2::sui::SUI" None 10 = Decoded (Some page)
      ∧ c ∈ Data page ∧ c !! "coinObjectId" = Some (VStr (Gas m)).
Proof.
  unfold ExternalStake.
  destruct (bool_decide (requesterCoinID = "") || bool_decide (accepterCoinID = "")).
  { intros H. by apply elem_of_nil in H. }
  destruct (amount =? 0).
  { intros H. by apply elem_of_nil in H. }
  intros Hin.
  apply trace_try_elem in Hin as [Hin | (coins & Hcoins & Hin)].
  { rewrite GetCoins_trace in Hin. apply list_elem_of_singleton in Hin. discriminate. }
  apply GetCoins_result_inv in Hcoins as (page & Hpage & ->).
  apply trace_bind_elem in Hin as [Hin | (gasCoin & Hgas & Hin)].
  { by apply elem_of_nil in Hin. }
  apply executeTransaction_calls in Hin. subst m. cbn [Gas stakeMoveCall].
  unfold lift, result in Hgas. cbn in Hgas.
  apply selectGasCoin_sound in Hgas as (Hne & Hr & Ha & c & Hc & Hid).
  repeat split; try done. by exists page, c.
Qed.

Lemma ExternalStake_gas_is_no_payment_coin_witness :
  Rpc (CallMoveCall (stakeMoveCall node.client "0xc1" "0xc2" 100 "0xc3"))
    ∈ trace (ExternalStake (node.serving node.wallet3 "tx" (node.succeeded "0xD"))
               node.client "0xc1" "0xc2" 100)
  ∧ "0xc3" ≠ "0xc1" ∧ "0xc3" ≠ "0xc2".
Proof.
  assert (Rpc (CallMoveCall (stakeMoveCall node.client "0xc1" "0xc2" 100 "0xc3"))
            ∈ trace (ExternalStake (node.serving node.wallet3 "tx" (node.succeeded "0xD"))
                       node.client "0xc1" "0xc2" 100)) as Hin.
  { vm_compute. apply list_elem_of_further, list_elem_of_here. }
  split; [exact Hin |].
  destruct (ExternalStake_gas_is_no_payment_coin _ _ _ _ _ _ Hin) as (_ & Hr & Ha & _).
  split; [exact Hr | exact Ha].
Defined.

(** X2. [ExternalStake] sends nothing exactly when a coin id is empty
    or the amount is 0, and then it returns the validation error; on
    every other input its first step is the coin query. *)
Theorem ExternalStake_local_rejection env s requesterCoinID accepterCoinID amount :
  (trace (ExternalStake env s requesterCoinID accepterCoinID amount) = []
   ↔ requesterCoinID = "" ∨ accepterCoinID = "" ∨ amount = 0)
  ∧ (trace (ExternalStake env s requesterCoinID accepterCoinID amount) = []
     ∧ (result (ExternalStake env s requesterCoinID accepterCoinID amount) = Err ErrBothCoinIDs
        ∨ result (ExternalStake env s requesterCoinID accepterCoinID amount) = Err ErrStakeAmount)
     ∨ ∃ t, trace (ExternalStake env s requesterCoinID accepterCoinID amount)
            = Rpc (CallGetCoins (address s) "0x2::sui::SUI" None 10) :: t).
Proof.
  unfold ExternalStake.
  destruct (bool_decide_reflect (requesterCoinID = "")) as [Hr | Hr]; cbn [orb].
  { split; [split; [by left | done] |]. left. split; [done | by left]. }
  destruct (bool_decide_reflect (accepterCoinID = "")) as [Ha | Ha]; cbn [orb].
  { split; [split; [by right; left | done] |]. left. split; [done | by left]. }
  destruct (Z.eqb_spec amount 0) as [Hz | Hz].
  { split; [split; [by right; right | done] |]. left. split; [done | by right]. }
  assert (∃ t, trace (try (GetCoins env s "0x2::sui::SUI") ErrCoinsForGas
                        (λ coins,
                           gasCoin ← lift (selectGasCoin requesterCoinID accepterCoinID coins);
                           executeTransaction env s
                             (stakeMoveCall s requesterCoinID accepterCoinID amount gasCoin)
                             "ExternalGameStaked"))
               = Rpc (CallGetCoins (address s) "0x2::sui::SUI" None 10) :: t) as [t Ht].
  { pose proof (GetCoins_trace env s "0x2::sui::SUI") as Hc.
    destruct (GetCoins env s "0x2::sui::SUI") as [tc [coins | e | p]];
      unfold trace in Hc; simpl in Hc; subst tc; unfold try; try by eexists.
    match goal with |- context [let '(t', r) := ?k in _] => destruct k as [t' r] end.
    by eexists. }
  split; [| right; by exists t].
  rewrite Ht. split; [discriminate | tauto].
Qed.

Lemma ExternalStake_local_rejection_witness :
  trace (ExternalStake (node.serving node.wallet3 "tx" (node.succeeded "0xD"))
           node.client "0xc1" "0xc2" 0) = [].
Proof.
  apply (proj2 (proj1 (ExternalStake_local_rejection
                  (node.serving node.wallet3 "tx" (node.succeeded "0xD"))
                  node.client "0xc1" "0xc2" 0))).
  right. right. reflexivity.
Defined.

(** The successful runs of [executeTransaction], read backwards. *)
Lemma executeTransaction_ok_inv env s m sfx digest :
  result (executeTransaction env s m sfx) = Ok digest →
  ∃ txBytes signature txResult,
    unsafe_moveCall env m = Decoded (Some txBytes)
    ∧ signTransaction env s txBytes = Ok signature
    ∧ sui_executeTransactionBlock env txBytes [signature] = Decoded (Some txResult)
    ∧ match Effects txResult !! "status" with
      | Some (VMap status) => notSuccess (index status "status") = false
      | _ => True
      end.
Proof.
  unfold executeTransaction.
  destruct (unsafe_moveCall env m) as [| | c msg | [txBytes |]] eqn:Hbuild;
    cbn; try discriminate.
  destruct (signTransaction env s txBytes) as [signature | e | p] eqn:Hsign;
    cbn; try discriminate.
  destruct (sui_executeTransactionBlock env txBytes [signature])
    as [| | c msg | [txResult |]] eqn:Hexec; cbn; try discriminate.
  intros H. exists txBytes, signature, txResult. repeat split; try done.
  destruct (Effects txResult !! "status") as [[| | | | | status] |]; try done.
  destruct (notSuccess (index status "status")); [| done].
  cbn in H. discriminate.
Qed.

(** X3. When [executeTransaction] returns a digest, the node built
    the move call it was given, the client signed exactly the bytes the
    node returned, the node executed them, the digest is the one of that
    execution, its effects carry no status object other than "success",
    and these two requests are all the client sent, in this order. *)
Theorem executeTransaction_digest_is_of_submitted_call env s m sfx digest :
  result (executeTransaction env s m sfx) = Ok digest →
  ∃ txBytes signature txResult,
    unsafe_moveCall env m = Decoded (Some txBytes)
    ∧ signTransaction env s txBytes = Ok signature
    ∧ sui_executeTransactionBlock env txBytes [signature] = Decoded (Some txResult)
    ∧ digest = Digest txResult
    ∧ (∀ status, Effects txResult !! "status" = Some (VMap status) →
                 status !! "status" = Some (VStr "success"))
    ∧ suiclient.requests (trace (executeTransaction env s m sfx))
      = [CallMoveCall m; CallExecute txBytes [signature]].
Proof.
  intros Hok.
  destruct (executeTransaction_ok_inv _ _ _ _ _ Hok)
    as (txBytes & signature & txResult & Hbuild & Hsign & Hexec & Hstatus).
  exists txBytes, signature, txResult.
  rewrite (executeTransaction_run env s m sfx txBytes signature txResult
             Hbuild Hsign Hexec Hstatus) in Hok |- *.
  unfold result in Hok. cbn in Hok. injection Hok as <-.
  repeat split; try done.
  - intros status Hst. rewrite Hst in Hstatus. unfold index, notSuccess in Hstatus.
    destruct (status !! "status") as [[| | | st | |] |]; cbn in Hstatus; try discriminate.
    destruct (bool_decide_reflect (st ≠ "success")) as [Hne | Heq]; [discriminate |].
    f_equal. f_equal. by destruct (decide (st = "success")).
  - unfold trace, suiclient.requests. cbn. f_equal. f_equal.
    set (eventType := PackageID (config s) +:+ _).
    rewrite omap_app.
    assert (omap (λ ev, match ev with Rpc c => Some c | Print _ => None end)
              (eventLoop eventType (Events txResult)).1 = []) as ->.
    { pose proof (eventLoop_prints eventType (Events txResult)) as Hp.
      unfold trace in Hp.
      induction ((eventLoop eventType (Events txResult)).1) as [| ev t IH]; [done |].
      destruct (Hp ev (list_elem_of_here _ _)) as [l ->]. cbn.
      apply IH. intros ev' Hin. apply Hp. by apply list_elem_of_further. }
    by destruct (bool_decide _).
Qed.

Lemma executeTransaction_digest_is_of_submitted_call_witness :
  result (executeTransaction (node.serving node.wallet3 "tx" (node.succeeded "0xD"))
            node.client (stakeMoveCall node.client "0xc1" "0xc2" 100 "0xc3")
            "ExternalGameStaked") = Ok "0xD"
  ∧ suiclient.requests
      (trace (executeTransaction (node.serving node.wallet3 "tx" (node.succeeded "0xD"))
                node.client (stakeMoveCall node.client "0xc1" "0xc2" 100 "0xc3")
                "ExternalGameStaked"))
    = [CallMoveCall (stakeMoveCall node.client "0xc1" "0xc2" 100 "0xc3");
       CallExecute "tx" [node.envelope]].
Proof.
  assert (result (executeTransaction (node.serving node.wallet3 "tx" (node.succeeded "0xD"))
            node.client (stakeMoveCall node.client "0xc1" "0xc2" 100 "0xc3")
            "ExternalGameStaked") = Ok "0xD") as Hok.
  { vm_compute. reflexivity. }
  split; [exact Hok |].
  destruct (executeTransaction_digest_is_of_submitted_call _ _ _ _ _ Hok)
    as (txBytes & signature & txResult & Hbuild & Hsign & _ & _ & _ & Hreq).
  rewrite Hreq. injection Hbuild as <-. injection Hsign as <-. reflexivity.
Defined.

End StakeFacts.

Module PayWinnerFacts.

Import Trace TraceFacts data ClientFacts.

(** Every move call that [ExternalPayWinner] builds is the pay-winner
    call for its arguments and for some gas coin. *)
Lemma ExternalPayWinner_calls env s requesterAddress accepterAddress
    requesterScore accepterScore stakeAmount m :
  Rpc (CallMoveCall m)
    ∈ trace (ExternalPayWinner env s requesterAddress accepterAddress
               requesterScore accepterScore stakeAmount) →
  ∃ page coin0 rest,
    suix_getCoins env (address s) "0x2::sui::SUI" None 10 = Decoded (Some page)
    ∧ Data page = coin0 :: rest
    ∧ coin0 !! "coinObjectId" = Some (VStr (Gas m))
    ∧ m = payWinnerMoveCall s requesterAddress accepterAddress
            requesterScore accepterScore stakeAmount (Gas m).
Proof.
  unfold ExternalPayWinner. intros Hin.
  apply trace_try_elem in Hin as [Hin | (coins & Hcoins & Hin)].
  { rewrite GetCoins_trace in Hin. apply list_elem_of_singleton in Hin. discriminate. }
  apply StakeFacts.GetCoins_result_inv in Hcoins as (page & Hpage & ->).
  destruct (Data page) as [| coin0 rest] eqn:Hdata.
  { by apply elem_of_nil in Hin. }
  apply trace_bind_elem in Hin as [Hin | (gas & Hgas & Hin)].
  { by apply elem_of_nil in Hin. }
  unfold lift, result, assertString, index in Hgas. cbn in Hgas.
  destruct (coin0 !! "coinObjectId") as [[| | | id | |] |] eqn:Hid; cbn in Hgas;
    try discriminate.
  injection Hgas as ->.
  assert (m = payWinnerMoveCall s requesterAddress accepterAddress
                requesterScore accepterScore stakeAmount gas) as ->.
  { apply trace_try_elem in Hin as [Hin | (resp & _ & Hin)].
    { rewrite makeRPCCall_trace in Hin. apply list_elem_of_singleton in Hin. congruence. }
    destruct resp as [txBytes |]; [| by apply elem_of_nil in Hin].
    apply trace_try_elem in Hin as [Hin | (signature & _ & Hin)].
    { by apply elem_of_nil in Hin. }
    apply trace_try_elem in Hin as [Hin | (execResp & _ & Hin)].
    { rewrite makeRPCCall_trace in Hin. apply list_elem_of_singleton in Hin. discriminate. }
    destruct execResp as [txResult |]; [| by apply elem_of_nil in Hin].
    apply trace_bind_elem in Hin as [Hin | (? & _ & Hin)].
    - exfalso. revert Hin. generalize (Events txResult). intros events.
      induction events as [| ev events IH]; cbn [winEventLoop].
      + intros H. by apply elem_of_nil in H.
      + intros H. apply trace_bind_elem in H as [H | (? & _ & H)]; [| by apply IH].
        destruct (bool_decide _ && decodesAsWinEvent _).
        * apply list_elem_of_singleton in H. discriminate.
        * by apply elem_of_nil in H.
    - by apply elem_of_nil in Hin. }
  exists page, coin0, rest. by cbn.
Qed.

(** X4. For scores and a stake within [uint64], every move call that
    [ExternalPayWinner] builds targets "external_pay_winner" with the
    arguments [poolId, requesterAddress, accepterAddress,
    requesterScore, accepterScore, stakeAmount], the three numbers as
    decimal strings that parse back to them; its gas coin is the first
    coin of the list and its gas budget is "10000000". *)
Theorem ExternalPayWinner_move_call env s requesterAddress accepterAddress
    requesterScore accepterScore stakeAmount m :
  0 <= requesterScore <= Go.maxUint64 →
  0 <= accepterScore <= Go.maxUint64 →
  0 <= stakeAmount <= Go.maxUint64 →
  Rpc (CallMoveCall m)
    ∈ trace (ExternalPayWinner env s requesterAddress accepterAddress
               requesterScore accepterScore stakeAmount) →
  Function m = "external_pay_winner"
  ∧ GasBudget m = "10000000"
  ∧ (∃ page coin0 rest,
       suix_getCoins env (address s) "0x2::sui::SUI" None 10 = Decoded (Some page)
       ∧ Data page = coin0 :: rest
       ∧ coin0 !! "coinObjectId" = Some (VStr (Gas m)))
  ∧ ∃ score1 score2 stake,
      Arguments m = [VStr (PoolID (config s)); VStr requesterAddress; VStr accepterAddress;
                     VStr score1; VStr score2; VStr stake]
      ∧ Go.ParseUint score1 = Some requesterScore
      ∧ Go.ParseUint score2 = Some accepterScore
      ∧ Go.ParseUint stake = Some stakeAmount.
Proof.
  intros H1 H2 H3 Hin.
  apply ExternalPayWinner_calls in Hin as (page & coin0 & rest & Hpage & Hdata & Hid & Hm).
  rewrite Hm. unfold payWinnerMoveCall. cbn [Function GasBudget Arguments Gas].
  repeat split; try done.
  - by exists page, coin0, rest.
  - eexists _, _, _. split; [reflexivity |].
    by rewrite !GoFacts.ParseUint_Sprintf_d.
Qed.

Lemma ExternalPayWinner_move_call_witness :
  Rpc (CallMoveCall (payWinnerMoveCall node.client "0xa" "0xb" 3 1 100 "0xc1"))
    ∈ trace (ExternalPayWinner (node.serving node.wallet3 "tx" (node.succeeded "0xD"))
               node.client "0xa" "0xb" 3 1 100)
  ∧ ∃ score1 score2 stake,
      Arguments (payWinnerMoveCall node.client "0xa" "0xb" 3 1 100 "0xc1")
      = [VStr "0xpool"; VStr "0xa"; VStr "0xb"; VStr score1; VStr score2; VStr stake]
      ∧ Go.ParseUint score1 = Some 3
      ∧ Go.ParseUint score2 = Some 1
      ∧ Go.ParseUint stake = Some 100.
Proof.
  assert (Rpc (CallMoveCall (payWinnerMoveCall node.client "0xa" "0xb" 3 1 100 "0xc1"))
            ∈ trace (ExternalPayWinner (node.serving node.wallet3 "tx" (node.succeeded "0xD"))
                       node.client "0xa" "0xb" 3 1 100)) as Hin.
  { vm_compute. apply list_elem_of_further, list_elem_of_here. }
  split; [exact Hin |].
  refine (proj2 (proj2 (proj2 (ExternalPayWinner_move_call _ _ _ _ _ _ _ _ _ _ _ Hin))));
    split; (discriminate || reflexivity).
Defined.

End PayWinnerFacts.

(** ** More on the coin queries *)

Module CoinFacts.

Import Trace TraceFacts data ClientFacts.

Lemma assertString_inv (m : gmap string value) (k v : string) :
  assertString m k = Ok v → index m k = VStr v.
Proof. unfold assertString. destruct (index m k); by intros [= <-]. Qed.

(** The scan of [GetSufficientCoins], when it ends without a panic,
    has appended a prefix of the qualifying ids. *)
Lemma sufficientLoop_prefix requiredAmount count coins :
  ∀ suitableCoins l,
    sufficientLoop requiredAmount count coins suitableCoins = Ok l →
    ∃ k, l = suitableCoins
               ++ take k (spec.coinId <$> List.filter (spec.qualifies requiredAmount) coins).
Proof.
  induction coins as [| c coins IH]; intros suitableCoins l; cbn [sufficientLoop List.filter].
  - intros [= <-]. exists O. by rewrite app_nil_r.
  - destruct (assertString c "balance") as [b | |] eqn:Hb; cbn; try discriminate.
    apply assertString_inv in Hb.
    replace (spec.qualifies requiredAmount c)
      with (match Go.ParseUint b with
            | Some balance => requiredAmount <=? balance
            | None => false
            end)
      by (unfold spec.qualifies, spec.balanceOf; by rewrite Hb).
    destruct (Go.ParseUint b) as [balance |]; [| by apply IH].
    destruct (requiredAmount <=? balance); [| by apply IH].
    destruct (assertString c "coinObjectId") as [id | |] eqn:Hid; cbn; try discriminate.
    apply assertString_inv in Hid.
    replace (spec.coinId c) with id by (unfold spec.coinId; by rewrite Hid).
    destruct (count <=? _).
    + intros [= <-]. by exists 1%nat.
    + intros H. apply IH in H as [k ->]. exists (S k). by rewrite <- app_assoc.
Qed.

Lemma sufficientLoop_length requiredAmount count coins :
  ∀ suitableCoins l,
    Z.of_nat (length suitableCoins) < count →
    sufficientLoop requiredAmount count coins suitableCoins = Ok l →
    Z.of_nat (length l) <= count.
Proof.
  induction coins as [| c coins IH]; intros suitableCoins l Hlen; cbn [sufficientLoop].
  - intros [= <-]. lia.
  - destruct (assertString c "balance") as [b | |]; cbn; try discriminate.
    destruct (Go.ParseUint b) as [balance |]; [| by apply IH].
    destruct (requiredAmount <=? balance); [| by apply IH].
    destruct (assertString c "coinObjectId") as [id | |]; cbn; try discriminate.
    assert (length (suitableCoins ++ [id]) = S (length suitableCoins)) as Hl.
    { rewrite length_app. cbn. lia. }
    destruct (Z.leb_spec count (Z.of_nat (length (suitableCoins ++ [id])))).
    + intros [= <-]. lia.
    + by apply IH.
Qed.

Lemma qualifying_ids requiredAmount coins id :
  id ∈ spec.coinId <$> List.filter (spec.qualifies requiredAmount) coins →
  ∃ c balance, c ∈ coins ∧ spec.coinId c = id
               ∧ spec.balanceOf c = Some balance ∧ requiredAmount <= balance.
Proof.
  intros H. apply list_elem_of_fmap in H as (c & -> & Hc).
  apply list_elem_of_In, filter_In in Hc as [Hc Hq]. apply list_elem_of_In in Hc.
  unfold spec.qualifies in Hq.
  destruct (spec.balanceOf c) as [balance |] eqn:Hb; [| discriminate].
  exists c, balance. repeat split; try done. by apply Z.leb_le.
Qed.

Lemma filter_ids_sublist requiredAmount coins :
  (spec.coinId <$> List.filter (spec.qualifies requiredAmount) coins)
    `sublist_of` (spec.coinId <$> coins).
Proof.
  induction coins as [| c coins IH]; cbn [List.filter]; [done |].
  destruct (spec.qualifies requiredAmount c); cbn.
  - by apply sublist_skip.
  - by apply sublist_cons.
Qed.

(** X5. Whenever the payment-coin selection returns ids for a count
    of at least 1, whatever the shape of the listed coins: it returns
    exactly count ids, in list order; each is the id of a listed coin
    whose own balance parses to at least the required amount; and no id
    comes twice when the listed ids are distinct. *)
Theorem selectSufficientCoins_sound requiredAmount count coins l :
  1 <= count →
  selectSufficientCoins requiredAmount count coins = Ok l →
  Z.of_nat (length l) = count
  ∧ l `sublist_of` (spec.coinId <$> coins)
  ∧ (∀ id, id ∈ l →
       ∃ c balance, c ∈ coins ∧ spec.coinId c = id
                    ∧ spec.balanceOf c = Some balance ∧ requiredAmount <= balance)
  ∧ (NoDup (spec.coinId <$> coins) → NoDup l).
Proof.
  intros Hcount. unfold selectSufficientCoins.
  destruct (sufficientLoop requiredAmount count coins []) as [l' | e | p] eqn:Hloop;
    cbn; try discriminate.
  destruct (Z.ltb_spec (Z.of_nat (length l')) count) as [| Hge]; [discriminate |].
  intros [= <-].
  assert (Z.of_nat (length (@nil string)) < count) as Hnil by (cbn; lia).
  pose proof (sufficientLoop_length _ _ _ _ _ Hnil Hloop) as Hle.
  apply sufficientLoop_prefix in Hloop as [k Hl]. cbn in Hl.
  assert (l' `sublist_of` (spec.coinId <$> coins)) as Hsub.
  { rewrite Hl. etrans; [apply sublist_take | apply filter_ids_sublist]. }
  repeat split.
  - lia.
  - done.
  - intros id Hin. apply (qualifying_ids requiredAmount). rewrite Hl in Hin.
    by apply (subseteq_take k) in Hin.
  - intros Hnd. by eapply sublist_NoDup.
Qed.

Lemma selectSufficientCoins_sound_witness :
  (1 <= 2 ∧ selectSufficientCoins 250 2 node.wallet3 = Ok ["0xc1"; "0xc2"])
  ∧ ∀ id, id ∈ ["0xc1"; "0xc2"] →
      ∃ c balance, c ∈ node.wallet3 ∧ spec.coinId c = id
                   ∧ spec.balanceOf c = Some balance ∧ 250 <= balance.
Proof.
  assert (1 <= 2 ∧ selectSufficientCoins 250 2 node.wallet3 = Ok ["0xc1"; "0xc2"]) as H.
  { split; [lia | vm_compute; reflexivity]. }
  split; [exact H |]. destruct H as [Hcount Hok].
  exact (proj1 (proj2 (proj2 (selectSufficientCoins_sound 250 2 node.wallet3 _ Hcount Hok)))).
Defined.

End CoinFacts.

Module PagingFacts.

Import Trace TraceFacts data ClientFacts suiclient.

Lemma GetCoinsByType_run env s coinType cursor limit :
  GetCoinsByType env s coinType cursor limit
  = ([Rpc (CallGetCoins (address s) coinType cursor limit)],
     match suix_getCoins env (address s) coinType cursor limit with
     | Unreachable => Err ErrRequest
     | Garbled => Err ErrDecode
     | Remote code message => Err (ErrRPC code message)
     | Decoded None => Err ErrParseCoins
     | Decoded (Some p) =>
         Ok (Data p, if HasNextPage p then NextCursor p else None)
     end).
Proof.
  unfold GetCoinsByType.
  by destruct (suix_getCoins env (address s) coinType cursor limit) as [| | c msg | [p |]].
Qed.

Lemma allCoinsLoop_walk env s coinType cursor pages final :
  Pages env (address s) coinType cursor pages final →
  ∀ fuel allCoins,
    (length pages < fuel)%nat →
    allCoinsLoop env fuel s coinType cursor allCoins
    = (Rpc <$> ((λ c, CallGetCoins (address s) coinType c 50)
                  <$> (cursor :: (NextCursor <$> pages))),
       match final with
       | Unreachable => Err ErrRequest
       | Garbled => Err ErrDecode
       | Remote code message => Err (ErrRPC code message)
       | Decoded None => Err ErrParseCoins
       | Decoded (Some p) => Ok (Some (allCoins ++ concat (Data <$> pages) ++ Data p))
       end).
Proof.
  induction 1 as [cursor final Hreply Hend | cursor p c pages final Hreply Hmore Hc _ IH];
    intros [| fuel] allCoins Hfuel; cbn in Hfuel; try lia; cbn [allCoinsLoop].
  - rewrite GetCoinsByType_run, Hreply.
    destruct final as [| | code msg | [p |]]; try done.
    destruct (HasNextPage p) eqn:Hh; [destruct (NextCursor p) as [c |] eqn:Hn |]; try done.
    exfalso. by eapply Hend.
  - rewrite GetCoinsByType_run, Hreply, Hmore, Hc. cbn.
    rewrite (IH fuel (allCoins ++ Data p)) by lia. cbn. rewrite Hc.
    f_equal. destruct final as [| | code msg | [q |]]; try done.
    by rewrite <- !app_assoc.
Qed.

(** X6. [GetAllCoins] asks for pages of fifty coins, the first
    without a cursor and each next one with the cursor the page before
    named, and stops at the first reply that is no page announcing a
    named successor.  When that reply is a page, the result is all
    pages joined in order; when it is an error, the error is returned as
    it is and the coins read so far are dropped. *)
Theorem GetAllCoins_walks_the_pages env fuel s coinType pages final :
  Pages env (address s) coinType None pages final →
  (length pages < fuel)%nat →
  requests (trace (GetAllCoins env fuel s coinType))
  = (λ c, CallGetCoins (address s) coinType c 50) <$> (None :: (NextCursor <$> pages))
  ∧ result (GetAllCoins env fuel s coinType)
    = match final with
      | Unreachable => Err ErrRequest
      | Garbled => Err ErrDecode
      | Remote code message => Err (ErrRPC code message)
      | Decoded None => Err ErrParseCoins
      | Decoded (Some p) => Ok (Some (concat (Data <$> pages) ++ Data p))
      end.
Proof.
  intros Hpages Hfuel. unfold GetAllCoins.
  rewrite (allCoinsLoop_walk _ _ _ _ _ _ Hpages fuel []) by done.
  split; [| done]. unfold trace, requests. cbn [fst].
  generalize ((λ c, CallGetCoins (address s) coinType c 50)
                <$> (None :: (NextCursor <$> pages))).
  intros calls. induction calls as [| call calls IH]; [done |]. cbn. by rewrite IH.
Qed.

Lemma GetAllCoins_walks_the_pages_witness :
  requests (trace (GetAllCoins fixtures.twoPages 2 node.client "0x2::sui::SUI"))
  = [CallGetCoins "0xa11ce" "0x2::sui::SUI" None 50;
     CallGetCoins "0xa11ce" "0x2::sui::SUI" (Some "0xc2") 50]
  ∧ match result (GetAllCoins fixtures.twoPages 2 node.client "0x2::sui::SUI") with
    | Ok (Some coins) => spec.coinId <$> coins
    | _ => []
    end = ["0xc1"; "0xc2"; "0xc3"].
Proof.
  destruct (GetAllCoins_walks_the_pages fixtures.twoPages 2 node.client "0x2::sui::SUI"
              [{| Data := [node.mkCoin "0xc1" "500"; node.mkCoin "0xc2" "300"];
                  NextCursor := Some "0xc2";
                  HasNextPage := true |}]
              (Decoded (Some {| Data := [node.mkCoin "0xc3" "200"];
                                NextCursor := Some "0xc3";
                                HasNextPage := false |})))
    as [Hreq Hres].
  - eapply pages_next; [reflexivity | reflexivity | reflexivity |].
    apply pages_end; [reflexivity |].
    intros p c [= <-]. discriminate.
  - cbn. lia.
  - rewrite Hreq, Hres. split; vm_compute; reflexivity.
Defined.

Lemma after_last (prefix rest : list (gmap string value)) (c : gmap string value) :
  NoDup (spec.coinId <$> (prefix ++ c :: rest)) →
  node.after (spec.coinId c) (prefix ++ c :: rest) = rest.
Proof.
  induction prefix as [| x prefix IH]; cbn [app node.after]; intros Hnd.
  - by rewrite bool_decide_eq_true_2.
  - rewrite fmap_cons in Hnd. apply NoDup_cons in Hnd as [Hx Hnd].
    rewrite bool_decide_eq_false_2; [by apply IH |].
    intros Heq. apply Hx. rewrite Heq. apply list_elem_of_fmap. exists c.
    split; [done |]. apply elem_of_app. right. apply list_elem_of_here.
Qed.

Lemma allCoinsLoop_serving wallet txBytes txResult s coinType :
  NoDup (spec.coinId <$> wallet) →
  ∀ fuel prefix rest allCoins,
    wallet = prefix ++ rest →
    (length rest < 50 * fuel)%nat →
    result (allCoinsLoop (node.serving wallet txBytes txResult) fuel s coinType
              (spec.coinId <$> last prefix) allCoins)
    = Ok (Some (allCoins ++ rest)).
Proof.
  intros Hnd. induction fuel as [| fuel IH]; intros prefix rest allCoins Hw Hlen; [lia |].
  cbn [allCoinsLoop]. rewrite GetCoinsByType_run. cbn [node.serving suix_getCoins].
  assert (match spec.coinId <$> last prefix with
          | None => wallet
          | Some c => node.after c wallet
          end = rest) as Hrest.
  { destruct (last prefix) as [c |] eqn:Hlast; cbn.
    - apply last_Some in Hlast as [prefix' ->]. subst wallet.
      rewrite <- app_assoc. cbn. apply after_last. by rewrite <- app_assoc in Hnd.
    - apply last_None in Hlast. by subst. }
  unfold node.page. rewrite Hrest. cbn [Data HasNextPage NextCursor].
  change (Z.to_nat 50) with 50%nat.
  destruct (decide (length rest ≤ 50)%nat) as [Hshort | Hlong].
  - rewrite take_ge by done. rewrite bool_decide_eq_false_2 by lia. done.
  - assert (length (take 50 rest) = 50%nat) as Htake by (rewrite length_take; lia).
    rewrite bool_decide_eq_true_2 by lia.
    destruct (last (take 50 rest)) as [c |] eqn:Hlast.
    2:{ apply last_None in Hlast. rewrite Hlast in Htake. discriminate. }
    unfold result, mbind, trace_bind, bind. cbn.
    assert (Some (spec.coinId c) = spec.coinId <$> last (prefix ++ take 50 rest)) as ->.
    { rewrite last_app, Hlast. done. }
    specialize (IH (prefix ++ take 50 rest) (drop 50 rest) (allCoins ++ take 50 rest)).
    destruct (allCoinsLoop _ fuel s coinType _ _) as [t r]. cbn.
    unfold result in IH. cbn in IH. rewrite IH.
    + by rewrite <- app_assoc, take_drop.
    + by rewrite <- app_assoc, take_drop.
    + rewrite length_drop. lia.
Qed.

(** X7. At a node that serves a wallet of distinct coin ids in
    pages, cursor by cursor, [GetAllCoins] returns every coin of the
    wallet once and in order, as soon as its loop may run for more
    pages than the wallet has full ones. *)
Theorem GetAllCoins_returns_the_wallet wallet txBytes txResult fuel s coinType :
  NoDup (spec.coinId <$> wallet) →
  (length wallet < 50 * fuel)%nat →
  result (GetAllCoins (node.serving wallet txBytes txResult) fuel s coinType)
  = Ok (Some wallet).
Proof.
  intros Hnd Hfuel. unfold GetAllCoins.
  exact (allCoinsLoop_serving wallet txBytes txResult s coinType Hnd fuel [] wallet []
           eq_refl Hfuel).
Qed.

Lemma GetAllCoins_returns_the_wallet_witness :
  (length node.wallet12 < 50 * 1)%nat
  ∧ match result (GetAllCoins (node.serving node.wallet12 "tx" (node.succeeded "0xD"))
                    1 node.client "0x2::sui::SUI") with
    | Ok (Some coins) => length coins
    | _ => O
    end = 12%nat.
Proof.
  assert (length node.wallet12 < 50 * 1)%nat as Hlen by (cbn; lia).
  split; [exact Hlen |].
  rewrite (GetAllCoins_returns_the_wallet node.wallet12 "tx" (node.succeeded "0xD")
             1 node.client "0x2::sui::SUI").
  - reflexivity.
  - apply (bool_decide_unpack (NoDup (spec.coinId <$> node.wallet12))).
    vm_compute. exact I.
  - exact Hlen.
Defined.

Lemma totalBalanceLoop_sum coins :
  ∀ t, totalBalanceLoop coins (t mod 2 ^ 64)
       = (t + foldr Z.add 0 (omap spec.balanceOf coins)) mod 2 ^ 64.
Proof.
  induction coins as [| c coins IH]; intros t; cbn [totalBalanceLoop omap list_omap foldr].
  - f_equal. lia.
  - unfold spec.balanceOf at 1.
    destruct (index c "balance") as [| | | b | |]; try apply IH.
    destruct (Go.ParseUint b) as [balance |]; [| apply IH].
    cbn [foldr]. rewrite IH, <- Z.add_assoc, Z.add_mod_idemp_l by done.
    done.
Qed.

(** X8. [GetTotalBalance] returns the sum, modulo 2^64, of the
    balances that are strings and parse as [uint64]; a coin without such
    a balance adds nothing and stops nothing; an error of the coin
    listing is returned as it is; and no request is sent beyond those
    of [GetAllCoins]. *)
Theorem GetTotalBalance_sums_modulo env fuel s coinType :
  trace (GetTotalBalance env fuel s coinType) = trace (GetAllCoins env fuel s coinType)
  ∧ (∀ coins,
       result (GetAllCoins env fuel s coinType) = Ok (Some coins) →
       result (GetTotalBalance env fuel s coinType)
       = Ok (Some (foldr Z.add 0 (omap spec.balanceOf coins) mod 2 ^ 64)))
  ∧ (∀ e,
       result (GetAllCoins env fuel s coinType) = Err e →
       result (GetTotalBalance env fuel s coinType) = Err e).
Proof.
  unfold GetTotalBalance.
  destruct (GetAllCoins env fuel s coinType) as [t [[coins |] | e | p]];
    unfold try, trace, result; cbn; rewrite ?app_nil_r;
    (split; [done |]); (split; [| done || by intros e' [= <-]]);
    intros coins' H; try discriminate.
  injection H as <-. do 2 f_equal.
  exact (totalBalanceLoop_sum coins 0).
Qed.

Lemma GetTotalBalance_sums_modulo_witness :
  match result (GetAllCoins (node.serving fixtures.heavyWallet "tx" (node.succeeded "0xD"))
                  1 node.client "0x2::sui::SUI") with
  | Ok (Some coins) => spec.coinId <$> coins
  | _ => []
  end = ["0xh1"; "0xh2"; "0xh3"; "0xh4"]
  ∧ result (GetTotalBalance (node.serving fixtures.heavyWallet "tx" (node.succeeded "0xD"))
              1 node.client "0x2::sui::SUI")
    = Ok (Some 7).
Proof.
  split; [vm_compute; reflexivity |].
  destruct (GetTotalBalance_sums_modulo
              (node.serving fixtures.heavyWallet "tx" (node.succeeded "0xD"))
              1 node.client "0x2::sui::SUI") as (_ & Hsum & _).
  rewrite (Hsum fixtures.heavyWallet) by reflexivity.
  vm_compute. reflexivity.
Defined.



End PagingFacts.

(** ** Gas estimation and the pool check *)

Module QueryFacts.

Import Trace TraceFacts data suiclient.

(** X10. For a dry run that the node answers with three [uint64]
    costs, [EstimateGas] sends that one request and returns
    computation + storage - rebate computed on [uint64]: the exact
    difference when the rebate is at most the sum of the costs and the
    difference fits, and 2^64 more than the (negative) difference when
    the rebate exceeds the sum of the costs. *)
Theorem EstimateGas_wraps_around env node txBytes gasUsed :
  sui_dryRunTransactionBlock node (EncodeToString env txBytes) = Decoded (Some gasUsed) →
  0 <= ComputationCost gasUsed <= Go.maxUint64 →
  0 <= StorageCost gasUsed <= Go.maxUint64 →
  0 <= StorageRebate gasUsed <= Go.maxUint64 →
  ∃ totalGas,
    EstimateGas env node txBytes = ([DryRun (EncodeToString env txBytes)], Ok (totalGas, None))
    ∧ 0 <= totalGas <= Go.maxUint64
    ∧ (StorageRebate gasUsed <= ComputationCost gasUsed + StorageCost gasUsed →
       ComputationCost gasUsed + StorageCost gasUsed - StorageRebate gasUsed <= Go.maxUint64 →
       totalGas = ComputationCost gasUsed + StorageCost gasUsed - StorageRebate gasUsed)
    ∧ (ComputationCost gasUsed + StorageCost gasUsed < StorageRebate gasUsed →
       totalGas = 2 ^ 64 + ComputationCost gasUsed + StorageCost gasUsed
                  - StorageRebate gasUsed).
Proof.
  intros Hreply Hc Hs Hr. unfold EstimateGas. rewrite Hreply. cbn [makeQuery].
  eexists. split; [reflexivity |].
  assert (Go.maxUint64 = 2 ^ 64 - 1) as Hmax by reflexivity.
  assert (0 < 2 ^ 64) as Hpos by reflexivity.
  set (c := ComputationCost gasUsed) in *. set (st := StorageCost gasUsed) in *.
  set (r := StorageRebate gasUsed) in *.
  rewrite Zminus_mod_idemp_l.
  pose proof (Z.mod_pos_bound (c + st - r) (2 ^ 64) Hpos) as Hb.
  split; [lia |]. split.
  - intros Hle Hfit. apply Z.mod_small. lia.
  - intros Hlt. symmetry. apply (Z.mod_unique _ _ (-1)); lia.
Qed.

Lemma EstimateGas_wraps_around_witness :
  ∃ totalGas,
    EstimateGas (node.serving node.wallet3 "tx" (node.succeeded "0xD")) fixtures.rebating "raw"
    = ([DryRun "raw"], Ok (totalGas, None))
    ∧ 0 <= totalGas <= Go.maxUint64
    ∧ (5000 <= 1000 + 2000 → 1000 + 2000 - 5000 <= Go.maxUint64 →
       totalGas = 1000 + 2000 - 5000)
    ∧ (1000 + 2000 < 5000 → totalGas = 2 ^ 64 + 1000 + 2000 - 5000).
Proof.
  apply (EstimateGas_wraps_around
           (node.serving node.wallet3 "tx" (node.succeeded "0xD")) fixtures.rebating "raw"
           {| ComputationCost := 1000; StorageCost := 2000; StorageRebate := 5000 |});
    [reflexivity | unfold Go.maxUint64; cbn; lia ..].
Defined.

(** X11. [ValidatePoolConfig] checks the pool id, the package id
    and the module name, in this order, before it sends anything; with
    the three set it sends one object query for the pool, and it accepts
    the configuration exactly when the reply decodes and does not hold a
    data object whose objectId is nil, so also when the reply holds no
    data at all. *)
Theorem ValidatePoolConfig_accepts node s :
  (PoolID (config s) = "" →
   ValidatePoolConfig node s = ([], Ok (Some (Errorf "pool ID not configured"))))
  ∧ (PoolID (config s) ≠ "" → PackageID (config s) = "" →
     ValidatePoolConfig node s = ([], Ok (Some (Errorf "package ID not configured"))))
  ∧ (PoolID (config s) ≠ "" → PackageID (config s) ≠ "" → ModuleName (config s) = "" →
     ValidatePoolConfig node s = ([], Ok (Some (Errorf "module name not configured"))))
  ∧ (PoolID (config s) ≠ "" → PackageID (config s) ≠ "" → ModuleName (config s) ≠ "" →
     trace (ValidatePoolConfig node s) = [GetObject (PoolID (config s))]
     ∧ (result (ValidatePoolConfig node s) = Ok None
        ↔ ∃ object,
            sui_getObject node (PoolID (config s)) = Decoded (Some object)
            ∧ ∀ dataMap, object !! "data" = Some (VMap dataMap) →
                         index dataMap "objectId" ≠ VNil)).
Proof.
  unfold ValidatePoolConfig.
  split; [intros ->; done |].
  split; [intros Hp ->; by rewrite bool_decide_eq_false_2 |].
  split; [intros Hp Hk ->; by rewrite 2!bool_decide_eq_false_2 |].
  intros Hp Hk Hm. rewrite !bool_decide_eq_false_2 by done.
  unfold GetStakePool. rewrite bool_decide_eq_false_2 by done.
  destruct (sui_getObject node (PoolID (config s))) as [| | c msg | [object |]] eqn:Hreply;
    cbn; try (split; [done |]; split; [discriminate |]; by intros (? & [=] & _)).
  destruct (object !! "data") as [[| | | | | dataMap] |] eqn:Hdata; cbn;
    try (split; [done |]; split; [| done]; intros _; exists object;
         split; [done |]; intros ? ?; congruence).
  destruct (index dataMap "objectId") eqn:Hid; cbn;
    (split; [done |]); split;
    try discriminate; try done;
    try (intros _; exists object; split; [done |]; intros dm Hdm;
         rewrite Hdata in Hdm; injection Hdm as <-; by rewrite Hid);
    intros (x & Hx & Hno); injection Hx as <-; exfalso; by eapply Hno.
Qed.

Lemma ValidatePoolConfig_accepts_witness :
  trace (ValidatePoolConfig fixtures.rebating node.client) = [GetObject "0xpool"]
  ∧ result (ValidatePoolConfig fixtures.rebating node.client) = Ok None.
Proof.
  destruct (ValidatePoolConfig_accepts fixtures.rebating node.client)
    as (_ & _ & _ & Hset).
  destruct Hset as [Htrace Hresult]; [discriminate .. |].
  split; [exact Htrace |]. apply Hresult. exists ∅. split; [reflexivity |].
  intros dataMap Hdata. rewrite lookup_empty in Hdata. discriminate Hdata.
Defined.

End QueryFacts.

(** ** The history queries *)

Module HistoryFacts.

Import Trace TraceFacts response history.

(** X12. [GetStakeHistory] asks the store nothing for an empty
    address; otherwise it sends one [Find] on the stakes collection for
    the stakes in which the address took part, newest first and at most
    fifty.  When [Find] fails no cursor is read or closed and the error
    of [Find] is returned as it is; when [Find] gives a cursor the
    cursor is read once and closed once, after the log line, whether
    decoding succeeds or not.  The call always returns; the count it
    reports is the number of stakes in the response, and it reports
    success exactly when it returns no error, with the stakes the
    cursor decoded. *)
Theorem GetStakeHistory_closes_cursor mongoClient address :
  let run := GetStakeHistory mongoClient address in
  let query := FindCall "jollfi_games" "stakes" (participantFilter address) latest50 in
  let found := Find mongoClient "jollfi_games" "stakes" (participantFilter address) latest50 in
  (address = "" → trace run = [])
  ∧ (address ≠ "" → ∀ e, found = inl e →
     trace run = [query; Log (LogFetchStakesFailed address e)]
     ∧ ∃ resp, result run = Ok (resp, Some (Same e)))
  ∧ (address ≠ "" → ∀ cursor, found = inr cursor →
     ∃ l, trace run = [query; AllCall; Log l; CloseCall])
  ∧ ∃ resp err,
      result run = Ok (resp, err)
      ∧ StakeCount resp = Z.of_nat (length (Stakes resp))
      ∧ (StakeSuccess resp = true ↔ err = None)
      ∧ (err = None →
         address ≠ "" ∧ ∃ cursor, found = inr cursor ∧ AllStakes cursor = inr (Stakes resp)).
Proof.
  cbn zeta. unfold GetStakeHistory.
  destruct (bool_decide_reflect (address = "")) as [-> | Hne].
  - split; [done |]. split; [done |]. split; [done |].
    eexists _, _. split; [reflexivity |]. cbn. split; [done |].
    split; [split; discriminate | discriminate].
  - split; [done |].
    destruct (Find mongoClient "jollfi_games" "stakes" (participantFilter address) latest50)
      as [e | cursor] eqn:Hfind.
    + split; [intros _ ? [= <-]; split; [done | by eexists] |].
      split; [intros _ ? [=] |].
      eexists _, _. split; [reflexivity |]. cbn. split; [done |].
      split; [split; discriminate | discriminate].
    + split; [intros _ ? [=] |].
      destruct (AllStakes cursor) as [e | stakes] eqn:Hall.
      * split; [intros _ ? [= <-]; by eexists |].
        eexists _, _. split; [reflexivity |]. cbn. split; [done |].
        split; [split; discriminate | discriminate].
      * split; [intros _ ? [= <-]; by eexists |].
        eexists _, _. split; [reflexivity |]. cbn. split; [done |].
        split; [done |]. intros _. split; [done |]. exists cursor. split; [done | exact Hall].
Qed.

Lemma GetStakeHistory_closes_cursor_witness :
  ∃ l, trace (GetStakeHistory fixtures.store fixtures.alice)
       = [FindCall "jollfi_games" "stakes" (participantFilter fixtures.alice) latest50;
          AllCall; Log l; CloseCall].
Proof.
  destruct (GetStakeHistory_closes_cursor fixtures.store fixtures.alice)
    as (_ & _ & Hcursor & _).
  exact (Hcursor ltac:(discriminate) _ eq_refl).
Defined.

(** X13. [GetGameHistory] does the same on the pay_winners
    collection: nothing is asked for an empty address; a failed [Find]
    leaves no cursor to read or close and its error is returned as it
    is; a cursor is read once and closed once after the log line,
    whether decoding succeeds or not; the count is the number of games
    in the response and success is reported exactly when no error is
    returned, with the games the cursor decoded. *)
Theorem GetGameHistory_closes_cursor mongoClient address :
  let run := GetGameHistory mongoClient address in
  let query := FindCall "jollfi_games" "pay_winners" (participantFilter address) latest50 in
  let found :=
    Find mongoClient "jollfi_games" "pay_winners" (participantFilter address) latest50 in
  (address = "" → trace run = [])
  ∧ (address ≠ "" → ∀ e, found = inl e →
     trace run = [query; Log (LogFetchGamesFailed address e)]
     ∧ ∃ resp, result run = Ok (resp, Some (Same e)))
  ∧ (address ≠ "" → ∀ cursor, found = inr cursor →
     ∃ l, trace run = [query; AllCall; Log l; CloseCall])
  ∧ ∃ resp err,
      result run = Ok (resp, err)
      ∧ GameCount resp = Z.of_nat (length (Games resp))
      ∧ (GameSuccess resp = true ↔ err = None)
      ∧ (err = None →
         address ≠ "" ∧ ∃ cursor, found = inr cursor ∧ AllGames cursor = inr (Games resp)).
Proof.
  cbn zeta. unfold GetGameHistory.
  destruct (bool_decide_reflect (address = "")) as [-> | Hne].
  - split; [done |]. split; [done |]. split; [done |].
    eexists _, _. split; [reflexivity |]. cbn. split; [done |].
    split; [split; discriminate | discriminate].
  - split; [done |].
    destruct (Find mongoClient "jollfi_games" "pay_winners" (participantFilter address) latest50)
      as [e | cursor] eqn:Hfind.
    + split; [intros _ ? [= <-]; split; [done | by eexists] |].
      split; [intros _ ? [=] |].
      eexists _, _. split; [reflexivity |]. cbn. split; [done |].
      split; [split; discriminate | discriminate].
    + split; [intros _ ? [=] |].
      destruct (AllGames cursor) as [e | games] eqn:Hall.
      * split; [intros _ ? [= <-]; by eexists |].
        eexists _, _. split; [reflexivity |]. cbn. split; [done |].
        split; [split; discriminate | discriminate].
      * split; [intros _ ? [= <-]; by eexists |].
        eexists _, _. split; [reflexivity |]. cbn. split; [done |].
        split; [done |]. intros _. split; [done |]. exists cursor. split; [done | exact Hall].
Qed.

Lemma GetGameHistory_closes_cursor_witness :
  ∃ l, trace (GetGameHistory fixtures.store fixtures.alice)
       = [FindCall "jollfi_games" "pay_winners" (participantFilter fixtures.alice) latest50;
          AllCall; Log l; CloseCall].
Proof.
  destruct (GetGameHistory_closes_cursor fixtures.store fixtures.alice)
    as (_ & _ & Hcursor & _).
  exact (Hcursor ltac:(discriminate) _ eq_refl).
Defined.

End HistoryFacts.

(** ** The routes: validation and the two posting handlers *)

Module RouteFacts.

Import Trace TraceFacts response routes.

Lemma isHexDigit_spec c : isHexDigit c = true ↔ In c (list_ascii_of_string "0123456789abcdefABCDEF").
Proof.
  destruct c as [[] [] [] [] [] [] [] []]; vm_compute; split; intros H;
    try discriminate H; try reflexivity;
    try (repeat (first [left; reflexivity | right]));
    repeat (destruct H as [H | H]; [discriminate H |]); destruct H.
Qed.

Lemma hexLoop_spec hexPart :
  hexLoop hexPart = None ↔ ∀ c, In c (list_ascii_of_string hexPart) → isHexDigit c = true.
Proof.
  induction hexPart as [| a rest IH]; cbn [hexLoop list_ascii_of_string].
  - split; [intros _ c [] | done].
  - destruct (isHexDigit a) eqn:Ha.
    + rewrite IH. split.
      * intros Hrest c [<- | Hc]; [done | by apply Hrest].
      * intros Hall c Hc. apply Hall. by right.
    + split; [discriminate |]. intros Hall.
      specialize (Hall a (or_introl eq_refl)). congruence.
Qed.

Lemma substring_whole s : String.substring 0 (String.length s) s = s.
Proof. induction s as [| a s IH]; cbn; [done | by rewrite IH]. Qed.

(** X14. [validateSuiAddress] accepts exactly the strings made of
    0x and 38 to 64 characters that are all hexadecimal digits, of
    either case: the two bounds of the length check, 40 and 66, count
    the prefix. *)
Theorem validateSuiAddress_accepts address :
  validateSuiAddress address = None
  ↔ ∃ hexPart,
      address = "0x" +:+ hexPart
      ∧ (38 <= String.length hexPart <= 64)%nat
      ∧ ∀ c, In c (list_ascii_of_string hexPart) → In c (list_ascii_of_string "0123456789abcdefABCDEF").
Proof.
  unfold validateSuiAddress. split.
  - intros H.
    destruct ((Z.of_nat (String.length address) <? 40)
              || (66 <? Z.of_nat (String.length address))) eqn:Hlen; [discriminate |].
    destruct (String.prefix "0x" address) eqn:Hpre; [| discriminate].
    apply orb_false_iff in Hlen as [Hlo Hhi]. apply Z.ltb_ge in Hlo, Hhi.
    destruct address as [| a [| b hexPart]]; [cbn in Hlo; lia .. |].
    cbn [String.prefix] in Hpre.
    destruct (ascii_dec "0" a) as [<- |]; [| discriminate].
    destruct (ascii_dec "x" b) as [<- |]; [| discriminate].
    exists hexPart. split; [done |].
    cbn [String.length negb] in *.
    replace (S (S (String.length hexPart)) - 2)%nat with (String.length hexPart) in H by lia.
    cbn [String.substring] in H. rewrite substring_whole in H.
    split; [lia |]. intros c Hc. apply isHexDigit_spec.
    by apply (proj1 (hexLoop_spec hexPart) H).
  - intros (hexPart & -> & Hlen & Hhex).
    change ("0x" +:+ hexPart) with (String "0" (String "x" hexPart)).
    cbn [String.length String.prefix].
    destruct (ascii_dec "0" "0") as [_ |]; [| done].
    destruct (ascii_dec "x" "x") as [_ |]; [| done].
    replace ((Z.of_nat (S (S (String.length hexPart))) <? 40)
             || (66 <? Z.of_nat (S (S (String.length hexPart))))) with false
      by (symmetry; apply orb_false_iff; split; apply Z.ltb_ge; lia).
    replace (String.prefix "" hexPart) with true by (by destruct hexPart).
    cbn [negb].
    replace (S (S (String.length hexPart)) - 2)%nat with (String.length hexPart) by lia.
    cbn [String.substring]. rewrite substring_whole.
    apply hexLoop_spec. intros c Hc. apply isHexDigit_spec. by apply Hhex.
Qed.

Lemma validateSuiAddress_accepts_witness :
  ∃ hexPart,
    fixtures.alice = "0x" +:+ hexPart
    ∧ (38 <= String.length hexPart <= 64)%nat
    ∧ ∀ c, In c (list_ascii_of_string hexPart)
           → In c (list_ascii_of_string "0123456789abcdefABCDEF").
Proof. apply (proj1 (validateSuiAddress_accepts fixtures.alice)). reflexivity. Defined.

End RouteFacts.

(** ** From the validators to the chain *)

Module HandlerFacts.

Import Trace TraceFacts response routes.

Lemma validateStakeRequest_inv rc ac ra aa amount :
  validateStakeRequest (request.StakeRequest.Build_t rc ac ra aa amount) = None →
  rc ≠ "" ∧ ac ≠ "" ∧ ra ≠ "" ∧ aa ≠ "" ∧ amount ≠ 0 ∧ ra ≠ aa
  ∧ validateSuiAddress ra = None ∧ validateSuiAddress aa = None.
Proof.
  unfold validateStakeRequest.
  destruct (bool_decide_reflect (rc = "")); [discriminate |].
  destruct (bool_decide_reflect (ac = "")); [discriminate |].
  destruct (bool_decide_reflect (ra = "")); [discriminate |].
  destruct (bool_decide_reflect (aa = "")); [discriminate |].
  destruct (Z.eqb_spec amount 0); [discriminate |].
  destruct (bool_decide_reflect (ra = aa)); [discriminate |].
  destruct (validateSuiAddress ra); [discriminate |].
  destruct (validateSuiAddress aa); [discriminate |].
  done.
Qed.

Lemma validatePayWinnerRequest_inv ra aa rs as_ amount ts th :
  validatePayWinnerRequest (request.PayWinnerRequest.Build_t ra aa rs as_ amount ts th) = None →
  ra ≠ "" ∧ aa ≠ "" ∧ amount ≠ 0 ∧ ra ≠ aa
  ∧ validateSuiAddress ra = None ∧ validateSuiAddress aa = None.
Proof.
  unfold validatePayWinnerRequest.
  destruct (bool_decide_reflect (ra = "")); [discriminate |].
  destruct (bool_decide_reflect (aa = "")); [discriminate |].
  destruct (Z.eqb_spec amount 0); [discriminate |].
  destruct (bool_decide_reflect (ra = aa)); [discriminate |].
  destruct (validateSuiAddress ra); [discriminate |].
  destruct (validateSuiAddress aa); [discriminate |].
  done.
Qed.

(** What [StakeGame] does once its own checks pass, by the outcome of
    the chain operation. *)
Lemma StakeGame_run now s rc ac ra aa amount :
  rc ≠ "" → ac ≠ "" → ra ≠ "" → aa ≠ "" → amount ≠ 0 →
  let chain := interfaces.ExternalStake (service.suiClient s) rc ac amount in
  let start := [service.Log (service.LogProcessingStake amount);
                service.Log (service.LogParticipants ra aa)]
               ++ (service.Chain <$> trace chain) in
  let run := service.StakeGame now s (request.StakeRequest.Build_t rc ac ra aa amount) in
  match result chain with
  | Ok txDigest =>
      ∃ stake warning,
        trace run = start ++ service.Insert "jollfi_games" "stakes" (interfaces.StakeDoc stake)
                             :: warning ++ [service.Log (service.LogStakeOk txDigest)]
        ∧ models.Stake.TransactionHash stake = txDigest
        ∧ (∀ db coll doc, service.Insert db coll doc ∉ warning)
        ∧ ∃ resp, result run = Ok (resp, None)
                  ∧ StakeResponse.Success resp = true
                  ∧ StakeResponse.TransactionDigest resp = txDigest
  | Err e =>
      trace run = start ++ [service.Log (service.LogStakeFailed e)]
      ∧ ∃ resp, result run = Ok (resp, Some e)
                ∧ StakeResponse.Success resp = false
                ∧ StakeResponse.TransactionDigest resp = ""
  | Panic p => trace run = start ∧ result run = Panic p
  end.
Proof.
  intros Hrc Hac Hra Haa Hamount. cbn zeta. unfold service.StakeGame.
  rewrite (bool_decide_eq_false_2 (rc = "")), (bool_decide_eq_false_2 (ac = "")),
    (bool_decide_eq_false_2 (ra = "")), (bool_decide_eq_false_2 (aa = "")) by done.
  rewrite (proj2 (Z.eqb_neq amount 0) Hamount). cbn [orb].
  destruct (interfaces.ExternalStake (service.suiClient s) rc ac amount)
    as [t [txDigest | e | p]]; cbn.
  - unfold service.insertOrWarn.
    destruct (interfaces.InsertOne _ _ _ _) as [err |]; cbn.
    + eexists _, [_]. split; [reflexivity |].
      split; [done |]. split; [| by eexists].
      intros db coll doc [=]%list_elem_of_singleton.
    + eexists _, []. split; [reflexivity |].
      split; [done |]. split; [| by eexists].
      intros db coll doc []%elem_of_nil.
  - split; [done | by eexists].
  - done.
Qed.

(** The same for [PayWinner]. *)
Lemma PayWinner_run now s ra aa rs as_ amount ts th :
  ra ≠ "" → aa ≠ "" → amount ≠ 0 →
  let chain := interfaces.ExternalPayWinner (service.suiClient s) ra aa rs as_ amount in
  let start := [service.Log (service.LogProcessingPayment rs as_ amount)]
               ++ (service.Chain <$> trace chain) in
  let run :=
    service.PayWinner now s (request.PayWinnerRequest.Build_t ra aa rs as_ amount ts th) in
  match result chain with
  | Ok txDigest =>
      ∃ payWinner warning,
        trace run = start ++ service.Insert "jollfi_games" "pay_winners"
                               (interfaces.PayWinnerDoc payWinner)
                             :: warning ++ [service.Log (service.LogPayWinnerOk txDigest)]
        ∧ models.PayWinner.TransactionHash payWinner = txDigest
        ∧ (∀ db coll doc, service.Insert db coll doc ∉ warning)
        ∧ ∃ resp, result run = Ok (resp, None)
                  ∧ PayWinnerResponse.Success resp = true
                  ∧ PayWinnerResponse.TransactionDigest resp = txDigest
  | Err e =>
      trace run = start ++ [service.Log (service.LogPayWinnerFailed e)]
      ∧ ∃ resp, result run = Ok (resp, Some e)
                ∧ PayWinnerResponse.Success resp = false
                ∧ PayWinnerResponse.TransactionDigest resp = ""
  | Panic p => trace run = start ∧ result run = Panic p
  end.
Proof.
  intros Hra Haa Hamount. cbn zeta. unfold service.PayWinner.
  rewrite (bool_decide_eq_false_2 (ra = "")), (bool_decide_eq_false_2 (aa = "")) by done.
  rewrite (proj2 (Z.eqb_neq amount 0) Hamount). cbn [orb].
  destruct (interfaces.ExternalPayWinner (service.suiClient s) ra aa rs as_ amount)
    as [t [txDigest | e | p]]; cbn.
  - unfold service.insertOrWarn.
    destruct (interfaces.InsertOne _ _ _ _) as [err |]; cbn.
    + eexists _, [_]. split; [reflexivity |].
      split; [done |]. split; [| by eexists].
      intros db coll doc [=]%list_elem_of_singleton.
    + eexists _, []. split; [reflexivity |].
      split; [done |]. split; [| by eexists].
      intros db coll doc []%elem_of_nil.
  - split; [done | by eexists].
  - done.
Qed.

(** The two ways in which [StakeGame] returns once its checks pass. *)
Lemma StakeGame_outcome now s rc ac ra aa amount resp err :
  rc ≠ "" → ac ≠ "" → ra ≠ "" → aa ≠ "" → amount ≠ 0 →
  let chain := interfaces.ExternalStake (service.suiClient s) rc ac amount in
  let run := service.StakeGame now s (request.StakeRequest.Build_t rc ac ra aa amount) in
  result run = Ok (resp, err) →
  (err = None ∧ StakeResponse.Success resp = true
   ∧ result chain = Ok (StakeResponse.TransactionDigest resp)
   ∧ ∃ stake,
       service.Insert "jollfi_games" "stakes" (interfaces.StakeDoc stake) ∈ trace run
       ∧ models.Stake.TransactionHash stake = StakeResponse.TransactionDigest resp)
  ∨ (∃ e, err = Some e ∧ result chain = Err e)
    ∧ StakeResponse.Success resp = false
    ∧ ∀ db coll doc, service.Insert db coll doc ∉ trace run.
Proof.
  intros Hrc Hac Hra Haa Hamount. cbn zeta. intros Hresult.
  pose proof (StakeGame_run now s rc ac ra aa amount Hrc Hac Hra Haa Hamount) as Hrun.
  cbn zeta in Hrun.
  destruct (result (interfaces.ExternalStake (service.suiClient s) rc ac amount))
    as [txDigest | e | p].
  - destruct Hrun as (stake & warning & Htrace & Hhash & _ & resp' & Hresp & Hok & Hdigest).
    rewrite Hresp in Hresult. injection Hresult as <- <-. left.
    split; [done |]. split; [done |]. split; [by rewrite Hdigest |].
    exists stake. split; [| by rewrite Hdigest].
    rewrite Htrace. apply elem_of_app. right. by left.
  - destruct Hrun as (Htrace & resp' & Hresp & Hfail & _).
    rewrite Hresp in Hresult. injection Hresult as <- <-. right.
    split; [by exists e |]. split; [done |].
    intros db coll doc. rewrite Htrace.
    rewrite !elem_of_app, !elem_of_cons, !elem_of_nil, list_elem_of_fmap.
    intros [[[H | [H | []]] | (ev & H & _)] | [H | []]]; discriminate H.
  - destruct Hrun as [_ Hpanic]. congruence.
Qed.

Lemma PayWinner_outcome now s ra aa rs as_ amount ts th resp err :
  ra ≠ "" → aa ≠ "" → amount ≠ 0 →
  let chain := interfaces.ExternalPayWinner (service.suiClient s) ra aa rs as_ amount in
  let run :=
    service.PayWinner now s (request.PayWinnerRequest.Build_t ra aa rs as_ amount ts th) in
  result run = Ok (resp, err) →
  (err = None ∧ PayWinnerResponse.Success resp = true
   ∧ result chain = Ok (PayWinnerResponse.TransactionDigest resp)
   ∧ ∃ payWinner,
       service.Insert "jollfi_games" "pay_winners" (interfaces.PayWinnerDoc payWinner)
         ∈ trace run
       ∧ models.PayWinner.TransactionHash payWinner
         = PayWinnerResponse.TransactionDigest resp)
  ∨ (∃ e, err = Some e ∧ result chain = Err e)
    ∧ PayWinnerResponse.Success resp = false
    ∧ ∀ db coll doc, service.Insert db coll doc ∉ trace run.
Proof.
  intros Hra Haa Hamount. cbn zeta. intros Hresult.
  pose proof (PayWinner_run now s ra aa rs as_ amount ts th Hra Haa Hamount) as Hrun.
  cbn zeta in Hrun.
  destruct (result (interfaces.ExternalPayWinner (service.suiClient s) ra aa rs as_ amount))
    as [txDigest | e | p].
  - destruct Hrun as (payWinner & warning & Htrace & Hhash & _ & resp' & Hresp & Hok & Hdigest).
    rewrite Hresp in Hresult. injection Hresult as <- <-. left.
    split; [done |]. split; [done |]. split; [by rewrite Hdigest |].
    exists payWinner. split; [| by rewrite Hdigest].
    rewrite Htrace. apply elem_of_app. right. by left.
  - destruct Hrun as (Htrace & resp' & Hresp & Hfail & _).
    rewrite Hresp in Hresult. injection Hresult as <- <-. right.
    split; [by exists e |]. split; [done |].
    intros db coll doc. rewrite Htrace.
    rewrite !elem_of_app, !elem_of_cons, !elem_of_nil, list_elem_of_fmap.
    intros [[[H | []] | (ev & H & _)] | [H | []]]; discriminate H.
  - destruct Hrun as [_ Hpanic]. congruence.
Qed.

(** X15. A stake request that [validateStakeRequest] accepts, and
    a payout request that [validatePayWinnerRequest] accepts, pass the
    checks of the game service as well: the run of the service starts
    with its log lines and the whole run of the chain operation, called
    with the coin ids (the addresses and scores) and the amount of the
    request. *)
Theorem validated_requests_reach_the_chain now s :
  (∀ req, validateStakeRequest req = None →
     ∃ rest,
       trace (service.StakeGame now s req)
       = service.Log (service.LogProcessingStake (request.StakeRequest.StakeAmount req))
         :: service.Log (service.LogParticipants
                           (request.StakeRequest.RequesterAddress req)
                           (request.StakeRequest.AccepterAddress req))
         :: (service.Chain
               <$> trace (interfaces.ExternalStake (service.suiClient s)
                            (request.StakeRequest.RequesterCoinID req)
                            (request.StakeRequest.AccepterCoinID req)
                            (request.StakeRequest.StakeAmount req)))
            ++ rest)
  ∧ (∀ req, validatePayWinnerRequest req = None →
       ∃ rest,
         trace (service.PayWinner now s req)
         = service.Log (service.LogProcessingPayment
                          (request.PayWinnerRequest.RequesterScore req)
                          (request.PayWinnerRequest.AccepterScore req)
                          (request.PayWinnerRequest.StakeAmount req))
           :: (service.Chain
                 <$> trace (interfaces.ExternalPayWinner (service.suiClient s)
                              (request.PayWinnerRequest.RequesterAddress req)
                              (request.PayWinnerRequest.AccepterAddress req)
                              (request.PayWinnerRequest.RequesterScore req)
                              (request.PayWinnerRequest.AccepterScore req)
                              (request.PayWinnerRequest.StakeAmount req)))
              ++ rest).
Proof.
  split.
  - intros [rc ac ra aa amount] Hvalid.
    apply validateStakeRequest_inv in Hvalid as (Hrc & Hac & Hra & Haa & Hamount & _).
    pose proof (StakeGame_run now s rc ac ra aa amount Hrc Hac Hra Haa Hamount) as Hrun.
    cbn zeta in Hrun. cbn [request.StakeRequest.StakeAmount
      request.StakeRequest.RequesterAddress request.StakeRequest.AccepterAddress
      request.StakeRequest.RequesterCoinID request.StakeRequest.AccepterCoinID].
    destruct (result (interfaces.ExternalStake (service.suiClient s) rc ac amount)).
    + destruct Hrun as (stake & warning & -> & _). by eexists.
    + destruct Hrun as [-> _]. by eexists.
    + destruct Hrun as [-> _]. exists []. by rewrite app_nil_r.
  - intros [ra aa rs as_ amount ts th] Hvalid.
    apply validatePayWinnerRequest_inv in Hvalid as (Hra & Haa & Hamount & _).
    pose proof (PayWinner_run now s ra aa rs as_ amount ts th Hra Haa Hamount) as Hrun.
    cbn zeta in Hrun. cbn [request.PayWinnerRequest.StakeAmount
      request.PayWinnerRequest.RequesterAddress request.PayWinnerRequest.AccepterAddress
      request.PayWinnerRequest.RequesterScore request.PayWinnerRequest.AccepterScore].
    destruct (result (interfaces.ExternalPayWinner (service.suiClient s) ra aa rs as_ amount)).
    + destruct Hrun as (payWinner & warning & -> & _). by eexists.
    + destruct Hrun as [-> _]. by eexists.
    + destruct Hrun as [-> _]. exists []. by rewrite app_nil_r.
Qed.

Lemma validated_requests_reach_the_chain_witness :
  ∃ rest,
    trace (service.StakeGame 1700000000
             (node.gameService (node.serving node.wallet3 "tx" (node.succeeded "0xD"))
                node.storageUp)
             fixtures.stake100)
    = service.Log (service.LogProcessingStake 100)
      :: service.Log (service.LogParticipants fixtures.alice fixtures.bob)
      :: (service.Chain
            <$> trace (data.ExternalStake
                         (node.serving node.wallet3 "tx" (node.succeeded "0xD"))
                         node.client "0xc1" "0xc2" 100))
         ++ rest.
Proof.
  exact (proj1 (validated_requests_reach_the_chain 1700000000
                  (node.gameService (node.serving node.wallet3 "tx" (node.succeeded "0xD"))
                     node.storageUp))
           fixtures.stake100 eq_refl).
Defined.

(** X16. The answer of the stake handler tells what happened.
    Status 200 comes with a successful response that carries the digest
    the chain operation returned for the coin ids and the amount of the
    body, and the stake record with this digest was handed to the store.
    Status 500 comes with a failure response after the chain operation
    returned an error, and nothing was handed to the store.  Status 400
    comes with a failure response before the game service is called: for
    a content type other than JSON, an unreadable or malformed body, a
    negative amount, or a request the validator rejects. *)
Theorem handleStakeGame_status now gameService c status resp :
  result (handleStakeGame now gameService c) = Ok (status, resp) →
  let events := trace (handleStakeGame now gameService c) in
  let chain tempReq :=
    interfaces.ExternalStake (service.suiClient gameService)
      (RequesterCoinID tempReq) (AccepterCoinID tempReq) (StakeAmount tempReq mod 2 ^ 64) in
  (status = 200 ∧ StakeResponse.Success resp = true
   ∧ ∃ tempReq stake,
       Body c = Parsed tempReq ∧ 0 < StakeAmount tempReq
       ∧ result (chain tempReq) = Ok (StakeResponse.TransactionDigest resp)
       ∧ Service (service.Insert "jollfi_games" "stakes" (interfaces.StakeDoc stake)) ∈ events
       ∧ models.Stake.TransactionHash stake = StakeResponse.TransactionDigest resp)
  ∨ (status = 500 ∧ StakeResponse.Success resp = false
     ∧ (∃ tempReq e, Body c = Parsed tempReq ∧ result (chain tempReq) = Err e)
     ∧ ∀ db coll doc, Service (service.Insert db coll doc) ∉ events)
  ∨ (status = 400 ∧ StakeResponse.Success resp = false
     ∧ ∀ e, Service e ∉ events).
Proof.
  cbn zeta. unfold handleStakeGame.
  destruct (isJSON (ContentType c)); cbn [negb];
    [| intros [= <- <-]; right; right; split; [done |]; split; [done |];
       intros e; cbn; rewrite elem_of_cons, elem_of_nil; intros [H | []]; discriminate H].
  destruct (Body c) as [| message | tempReq];
    try (intros [= <- <-]; right; right; split; [done |]; split; [done |];
         intros e []%elem_of_nil).
  destruct (Z.ltb_spec (StakeAmount tempReq) 0) as [Hneg | Hpos];
    [intros [= <- <-]; right; right; split; [done |]; split; [done |];
     intros e []%elem_of_nil |].
  destruct (validateStakeRequest _) as [message |] eqn:Hvalid;
    [intros [= <- <-]; right; right; split; [done |]; split; [done |];
     intros e []%elem_of_nil |].
  apply validateStakeRequest_inv in Hvalid as (Hrc & Hac & Hra & Haa & Hamount & _).
  pose proof (λ resp err,
    StakeGame_outcome now gameService _ _ _ _ _ resp err Hrc Hac Hra Haa Hamount) as Hout.
  cbn zeta in Hout.
  destruct (service.StakeGame now gameService _) as [events [[resp' err] | e | p]];
    cbn; [| discriminate ..].
  specialize (Hout resp' err eq_refl). cbn [trace] in Hout.
  destruct Hout as [(-> & Hok & Hchain & stake & Hin & Hhash)
                   | ((e & -> & Hchain) & Hfail & Hnone)];
    cbn; intros [= <- <-].
  - left. split; [done |]. split; [done |]. exists tempReq, stake.
    split; [done |]. split; [| split; [done |]; split; [| done]].
    + destruct (Z.eq_dec (StakeAmount tempReq) 0) as [Hz |]; [| lia].
      rewrite Hz in Hamount. done.
    + rewrite app_nil_r. by apply list_elem_of_fmap_2.
  - right. left. split; [done |]. split; [done |]. split; [by exists tempReq, e |].
    intros db coll doc. rewrite app_nil_r, list_elem_of_fmap.
    intros (ev & [= <-] & Hev). by eapply Hnone.
Qed.

Lemma handleStakeGame_status_witness :
  let run :=
    handleStakeGame 1700000000
      (node.gameService (node.serving node.wallet3 "tx" (node.succeeded "0xD"))
         node.storageDown)
      fixtures.stakePost in
  ∃ resp, result run = Ok (200, resp)
          ∧ StakeResponse.TransactionDigest resp = "0xD"
          ∧ ∃ stake,
              Service (service.Insert "jollfi_games" "stakes" (interfaces.StakeDoc stake))
                ∈ trace run
              ∧ models.Stake.TransactionHash stake = "0xD".
Proof.
  cbn zeta. eexists. split; [reflexivity |]. split; [reflexivity |].
  destruct (handleStakeGame_status 1700000000
              (node.gameService (node.serving node.wallet3 "tx" (node.succeeded "0xD"))
                 node.storageDown)
              fixtures.stakePost 200 _ eq_refl)
    as [(_ & _ & tempReq & stake & _ & _ & _ & Hin & Hhash)
       | [(Hstatus & _) | (Hstatus & _)]]; [| discriminate Hstatus ..].
  exists stake. split; [exact Hin | exact Hhash].
Defined.

(** X17. The answer of the payout handler tells what happened.
    Status 200 comes with a successful response that carries the digest
    the chain operation returned for the addresses, the scores and the
    amount of the bound request, and the payout record with this digest
    was handed to the store.  Status 500 comes with a failure response
    after the chain operation returned an error, and nothing was handed
    to the store.  Status 400 comes with a failure response before the
    game service is called: for a content type other than JSON, a body
    that does not bind, or a request the validator rejects. *)
Theorem handlePayWinner_status now gameService c status resp :
  result (handlePayWinner now gameService c) = Ok (status, resp) →
  let events := trace (handlePayWinner now gameService c) in
  let chain req :=
    interfaces.ExternalPayWinner (service.suiClient gameService)
      (request.PayWinnerRequest.RequesterAddress req)
      (request.PayWinnerRequest.AccepterAddress req)
      (request.PayWinnerRequest.RequesterScore req)
      (request.PayWinnerRequest.AccepterScore req)
      (request.PayWinnerRequest.StakeAmount req) in
  (status = 200 ∧ PayWinnerResponse.Success resp = true
   ∧ ∃ req payWinner,
       Body c = Bound req
       ∧ result (chain req) = Ok (PayWinnerResponse.TransactionDigest resp)
       ∧ Service (service.Insert "jollfi_games" "pay_winners"
                    (interfaces.PayWinnerDoc payWinner)) ∈ events
       ∧ models.PayWinner.TransactionHash payWinner
         = PayWinnerResponse.TransactionDigest resp)
  ∨ (status = 500 ∧ PayWinnerResponse.Success resp = false
     ∧ (∃ req e, Body c = Bound req ∧ result (chain req) = Err e)
     ∧ ∀ db coll doc, Service (service.Insert db coll doc) ∉ events)
  ∨ (status = 400 ∧ PayWinnerResponse.Success resp = false
     ∧ ∀ e, Service e ∉ events).
Proof.
  cbn zeta. unfold handlePayWinner.
  destruct (isJSON (ContentType c)); cbn [negb];
    [| intros [= <- <-]; right; right; split; [done |]; split; [done |];
       intros e; cbn; rewrite elem_of_cons, elem_of_nil; intros [H | []]; discriminate H].
  destruct (Body c) as [message | req];
    [intros [= <- <-]; right; right; split; [done |]; split; [done |];
     intros e []%elem_of_nil |].
  destruct (validatePayWinnerRequest req) as [message |] eqn:Hvalid;
    [intros [= <- <-]; right; right; split; [done |]; split; [done |];
     intros e []%elem_of_nil |].
  destruct req as [ra aa rs as_ amount ts th].
  apply validatePayWinnerRequest_inv in Hvalid as (Hra & Haa & Hamount & _).
  pose proof (λ resp err,
    PayWinner_outcome now gameService ra aa rs as_ amount ts th resp err Hra Haa Hamount)
    as Hout.
  cbn zeta in Hout.
  destruct (service.PayWinner now gameService _) as [events [[resp' err] | e | p]];
    cbn; [| discriminate ..].
  specialize (Hout resp' err eq_refl). cbn [trace] in Hout.
  destruct Hout as [(-> & Hok & Hchain & payWinner & Hin & Hhash)
                   | ((e & -> & Hchain) & Hfail & Hnone)];
    cbn; intros [= <- <-].
  - left. split; [done |]. split; [done |]. eexists _, payWinner.
    split; [done |]. split; [done |]. split; [| done].
    rewrite app_nil_r. by apply list_elem_of_fmap_2.
  - right. left. split; [done |]. split; [done |]. split; [by eexists _, e |].
    intros db coll doc. rewrite app_nil_r, list_elem_of_fmap.
    intros (ev & [= <-] & Hev). by eapply Hnone.
Qed.

Lemma handlePayWinner_status_witness :
  let run :=
    handlePayWinner 1700000000
      (node.gameService (node.serving node.wallet3 "tx" (node.failed "0xD"))
         node.storageUp)
      fixtures.payWinnerPost in
  ∃ resp, result run = Ok (200, resp)
          ∧ PayWinnerResponse.TransactionDigest resp = "0xD"
          ∧ ∃ payWinner,
              Service (service.Insert "jollfi_games" "pay_winners"
                         (interfaces.PayWinnerDoc payWinner)) ∈ trace run
              ∧ models.PayWinner.TransactionHash payWinner = "0xD".
Proof.
  cbn zeta. eexists. split; [reflexivity |]. split; [reflexivity |].
  destruct (handlePayWinner_status 1700000000
              (node.gameService (node.serving node.wallet3 "tx" (node.failed "0xD"))
                 node.storageUp)
              fixtures.payWinnerPost 200 _ eq_refl)
    as [(_ & _ & req & payWinner & _ & _ & Hin & Hhash)
       | [(Hstatus & _) | (Hstatus & _)]]; [| discriminate Hstatus ..].
  exists payWinner. split; [exact Hin | exact Hhash].
Defined.

End HandlerFacts.
